(** * Bhutan-Legal-stamp: the stamp model, the overlay and the controller

    A shallow embedding of [types.ts], [components/PdfEditor.tsx] and
    [App.tsx].

    Numbers.  Page numbers are JavaScript numbers that only ever hold
    integers; they are modelled as [Z].  In [PdfEditor] and [App],
    pixel and point quantities are read as exact rationals ([Q]):
    rounding, NaN and the infinities are outside that reading, and a
    quotient is only meaningful where its divisor is not zero.  What is
    stated over [Q] is the formula the code evaluates, or an identity
    between such formulas, explicitly in exact arithmetic; no bound is
    claimed of the running code from it.  Where a bound is at stake,
    [Binary64] has the same handler over IEEE 754 doubles.

    Objects used as maps.  [StampState = Record<number, Stamp>] is a
    [gmap Z Stamp]: absence of a key is [None], [delete] removes the
    key, and two states are equal when they hold the same entries. *)

From Stdlib Require Import ZArith QArith Qminmax Lia.
From Stdlib Require Import Floats.SpecFloat.
From stdpp Require Import base option list sorting gmap strings.

Local Open Scope Z_scope.

(** ** types.ts *)

Module Types.

Record Stamp : Type := mkStamp {
  x : Q;
  y : Q;
  width : Q;
  height : Q;
  isPlaced : bool
}.

(** [Record<number, Stamp>] *)
Abbreviation StampState := (gmap Z Stamp).

End Types.

(** ** The two external libraries, as far as the repository calls them

    Nothing is assumed about when a call fails: a promise that can
    reject, or a call that can throw, has an [option] result, [None]
    being the failure. *)

Definition Bytes : Type := list Byte.byte.

(** pdf.js, [window.pdfjsLib]. *)
Module PdfJs.

Record PageViewport : Type := { width : Q; height : Q }.

Record PDFPageProxy : Type := {
  (** [page.getViewport({ scale })] *)
  getViewport : Q -> PageViewport
}.

Record PDFDocumentProxy : Type := {
  numPages : Z;
  (** [await doc.getPage(n)] *)
  getPage : Z -> option PDFPageProxy
}.

End PdfJs.

(** pdf-lib, [window.PDFLib]. *)
Module PdfLib.

Record PDFImage : Type := { png : Bytes }.

Record DrawImageOptions : Type := {
  x : Q;
  y : Q;
  width : Q;
  height : Q;
  opacity : Q
}.

Record Size : Type := { size_width : Q; size_height : Q }.

(** A page is its size and what has been drawn on it so far. *)
Record PDFPage : Type := {
  getSize : Size;
  drawn : list (PDFImage * DrawImageOptions)
}.

(** [page.drawImage(image, options)] appends to the page's content. *)
Definition drawImage (image : PDFImage) (options : DrawImageOptions)
    (page : PDFPage) : PDFPage :=
  {| getSize := getSize page;
     drawn := drawn page ++ [(image, options)] |}.

(** The document is the array [getPages()] returns. *)
Record PDFDocument : Type := { getPages : list PDFPage }.

End PdfLib.

(** JavaScript array indexing [a[i]] with a number that holds an
    integer: [undefined] (here [None]) outside [0 .. length-1].
    [array_set] puts back the element a method call has mutated. *)
Definition array_get {A : Type} (a : list A) (i : Z) : option A :=
  if 0 <=? i then a !! Z.to_nat i else None.

Definition array_set {A : Type} (a : list A) (i : Z) (v : A) : list A :=
  if 0 <=? i then <[Z.to_nat i := v]> a else a.

(** ** components/PdfEditor.tsx: the interactive overlay *)

Module PdfEditor.

(** The [{ x, y }] objects: relative coordinates and the grab offset. *)
Module Coords.
Record t : Type := mk { x : Q; y : Q }.
End Coords.

Record MouseEvent : Type := { clientX : Q; clientY : Q }.

(** [containerRef.current.getBoundingClientRect()] *)
Record DOMRect : Type := { left : Q; top : Q }.

(** The component's three [useState] cells. *)
Record State : Type := {
  isDragging : bool;
  isResizing : bool;
  dragOffset : Coords.t
}.

Definition initialState : State :=
  {| isDragging := false; isResizing := false;
     dragOffset := Coords.mk 0 0 |}.

(** [container] is [containerRef.current]: [None] while the ref is
    unset.  The local [p2] of the source is never used. *)
Definition getRelativeCoords (container : option DOMRect)
    (e : MouseEvent) : Coords.t :=
  match container with
  | None => Coords.mk 0 0
  | Some rect =>
      Coords.mk (clientX e - left rect)%Q (clientY e - top rect)%Q
  end.

Definition handleStampMouseDown (container : option DOMRect)
    (stamp : option Types.Stamp) (e : MouseEvent) (st : State) : State :=
  match stamp with
  | None => st
  | Some stamp =>
      let coords := getRelativeCoords container e in
      {| isDragging := true;
         isResizing := isResizing st;
         dragOffset :=
           Coords.mk (Coords.x coords - Types.x stamp)%Q
                     (Coords.y coords - Types.y stamp)%Q |}
  end.

Definition handleResizeHandleMouseDown (st : State) : State :=
  {| isDragging := isDragging st;
     isResizing := true;
     dragOffset := dragOffset st |}.

(** The stamp a drag move hands to [onStampChange]. *)
Definition dragUpdate (stamp : Types.Stamp) (coords offset : Coords.t)
    : Types.Stamp :=
  {| Types.x := (Coords.x coords - Coords.x offset)%Q;
     Types.y := (Coords.y coords - Coords.y offset)%Q;
     Types.width := Types.width stamp;
     Types.height := Types.height stamp;
     Types.isPlaced := Types.isPlaced stamp |}.

(** The stamp a resize move hands to [onStampChange], its arithmetic
    read exactly; [Binary64.resizeUpdate] is the same with the rounded
    operations. *)
Definition resizeUpdate (stamp : Types.Stamp) (coords : Coords.t)
    : Types.Stamp :=
  let newWidth := Qmax 50 (Coords.x coords - Types.x stamp) in
  let newHeight := Qmax 50 (Coords.y coords - Types.y stamp) in
  let aspectRatio := (Types.width stamp / Types.height stamp)%Q in
  {| Types.x := Types.x stamp;
     Types.y := Types.y stamp;
     Types.width := Qmax newWidth (newHeight * aspectRatio);
     Types.height := (Qmax newWidth (newHeight * aspectRatio) / aspectRatio)%Q;
     Types.isPlaced := Types.isPlaced stamp |}.

(** [handleMouseMove]: the result is the sequence of arguments the
    handler passes to [onStampChange], in call order. *)
Definition handleMouseMove (container : option DOMRect)
    (stamp : option Types.Stamp) (st : State) (e : MouseEvent)
    : list (option Types.Stamp) :=
  match stamp with
  | None => []
  | Some stamp =>
      if negb (isDragging st) && negb (isResizing st) then []
      else
        let coords := getRelativeCoords container e in
        (if isDragging st
         then [Some (dragUpdate stamp coords (dragOffset st))]
         else [])
        ++
        (if isResizing st
         then [Some (resizeUpdate stamp coords)]
         else [])
  end.

Definition handleMouseUp (st : State) : State :=
  {| isDragging := false;
     isResizing := false;
     dragOffset := dragOffset st |}.

(** [{stamp?.isPlaced && (...)}]: whether the overlay is rendered. *)
Definition overlayRendered (stamp : option Types.Stamp) : bool :=
  match stamp with
  | Some stamp => Types.isPlaced stamp
  | None => false
  end.

End PdfEditor.

(** ** The overlay's arithmetic as the browser runs it

    The move handler of [components/PdfEditor.tsx] once more, every
    number now an IEEE 754 binary64 value and every operation the
    correctly rounded one ([SpecFloat] at precision 53 and [emax]
    1024), for the statements that depend on rounding. *)

Module Binary64.

Definition double : Type := spec_float.

Definition prec : Z := 53.
Definition emax : Z := 1024.

(** An integer literal. *)
Definition of_Z (z : Z) : double := binary_normalize prec emax z 0 false.

Definition sub : double -> double -> double := SFsub prec emax.
Definition mul : double -> double -> double := SFmul prec emax.
Definition div : double -> double -> double := SFdiv prec emax.


(** [Math.max(a, b)]: NaN when either is NaN, and [+0] above [-0]. *)
Definition Math_max (a b : double) : double :=
  match a, b with
  | S754_zero sa, S754_zero sb => S754_zero (sa && sb)
  | _, _ =>
      match SFcompare a b with
      | Some Lt => b
      | Some _ => a
      | None => S754_nan
      end
  end.

Record Stamp : Type := mkStamp {
  x : double;
  y : double;
  width : double;
  height : double;
  isPlaced : bool
}.

Module Coords.
Record t : Type := mk { x : double; y : double }.
End Coords.

Record MouseEvent : Type := { clientX : double; clientY : double }.

Record DOMRect : Type := { left : double; top : double }.

Record State : Type := {
  isDragging : bool;
  isResizing : bool;
  dragOffset : Coords.t
}.

Definition getRelativeCoords (container : option DOMRect)
    (e : MouseEvent) : Coords.t :=
  match container with
  | None => Coords.mk (of_Z 0) (of_Z 0)
  | Some rect =>
      Coords.mk (sub (clientX e) (left rect)) (sub (clientY e) (top rect))
  end.

Definition dragUpdate (stamp : Stamp) (coords offset : Coords.t) : Stamp :=
  {| x := sub (Coords.x coords) (Coords.x offset);
     y := sub (Coords.y coords) (Coords.y offset);
     width := width stamp;
     height := height stamp;
     isPlaced := isPlaced stamp |}.

Definition resizeUpdate (stamp : Stamp) (coords : Coords.t) : Stamp :=
  let newWidth := Math_max (of_Z 50) (sub (Coords.x coords) (x stamp)) in
  let newHeight := Math_max (of_Z 50) (sub (Coords.y coords) (y stamp)) in
  let aspectRatio := div (width stamp) (height stamp) in
  {| x := x stamp;
     y := y stamp;
     width := Math_max newWidth (mul newHeight aspectRatio);
     height := div (Math_max newWidth (mul newHeight aspectRatio)) aspectRatio;
     isPlaced := isPlaced stamp |}.

Definition handleMouseMove (container : option DOMRect)
    (stamp : option Stamp) (st : State) (e : MouseEvent)
    : list (option Stamp) :=
  match stamp with
  | None => []
  | Some stamp =>
      if negb (isDragging st) && negb (isResizing st) then []
      else
        let coords := getRelativeCoords container e in
        (if isDragging st
         then [Some (dragUpdate stamp coords (dragOffset st))]
         else [])
        ++
        (if isResizing st
         then [Some (resizeUpdate stamp coords)]
         else [])
  end.

End Binary64.

(** ** App.tsx: the application controller and the export pipeline *)

Module App.
Import Types.

Inductive Status : Type := idle | loading | ready | processing.

(** The browser [File]: what the controller reads of it. *)
Record File : Type := { name : string; type : string }.

(** The six [useState] cells of [App]. *)
Record AppState : Type := {
  file : option File;
  pdfDoc : option PdfJs.PDFDocumentProxy;
  currentPage : Z;
  stamps : StampState;
  status : Status;
  error : option string
}.

Definition initialState : AppState :=
  {| file := None; pdfDoc := None; currentPage := 1; stamps := ∅;
     status := idle; error := None |}.

Definition setFile (v : option File) (st : AppState) : AppState :=
  {| file := v; pdfDoc := pdfDoc st; currentPage := currentPage st;
     stamps := stamps st; status := status st; error := error st |}.

Definition setPdfDoc (v : option PdfJs.PDFDocumentProxy) (st : AppState)
    : AppState :=
  {| file := file st; pdfDoc := v; currentPage := currentPage st;
     stamps := stamps st; status := status st; error := error st |}.

Definition setCurrentPage (v : Z) (st : AppState) : AppState :=
  {| file := file st; pdfDoc := pdfDoc st; currentPage := v;
     stamps := stamps st; status := status st; error := error st |}.

Definition setStamps (v : StampState) (st : AppState) : AppState :=
  {| file := file st; pdfDoc := pdfDoc st; currentPage := currentPage st;
     stamps := v; status := status st; error := error st |}.

Definition setStatus (v : Status) (st : AppState) : AppState :=
  {| file := file st; pdfDoc := pdfDoc st; currentPage := currentPage st;
     stamps := stamps st; status := v; error := error st |}.

Definition setError (v : option string) (st : AppState) : AppState :=
  {| file := file st; pdfDoc := pdfDoc st; currentPage := currentPage st;
     stamps := stamps st; status := status st; error := v |}.

(** *** What the handlers do outside the component's state *)

Inductive Effect : Type :=
| ReadFile (f : File)                      (* [file.arrayBuffer()] *)
| PdfJsGetDocument (data : Bytes)          (* [pdfjsLib.getDocument] *)
| PdfLibLoad (data : Bytes)                (* [PDFDocument.load] *)
| PdfLibEmbedPng                           (* [embedPng] *)
| PdfJsGetPage (pageNum : Z)               (* [pdfDoc.getPage] *)
| PdfLibDrawImage (index : Z) (options : PdfLib.DrawImageOptions)
| PdfLibSave                               (* [save] *)
| Download (filename : string) (data : Bytes)   (* the link and its click *)
| ConsoleError (label : string).

(** The world the handlers run in.  [pdfjsLib] and [PDFLib] are the
    two globals the CDN scripts define, [None] when a script did not
    load (reading a property of [undefined] throws); what is kept of
    each is the one entry point the handlers call, [getDocument(..).promise]
    and [PDFDocument.load].  The other fields are the outcomes of the
    calls the handlers await.  [stampImageBytes] is the decoded
    [STAMP_IMAGE_BASE64] of [constants.ts], [None] when its decoding
    throws. *)
Record Env : Type := {
  arrayBuffer : File -> option Bytes;
  pdfjsLib : option (Bytes -> option PdfJs.PDFDocumentProxy);
  PDFLib : option (Bytes -> option PdfLib.PDFDocument);
  stampImageBytes : option Bytes;
  embedPng : PdfLib.PDFDocument -> Bytes -> option PdfLib.PDFImage;
  save : PdfLib.PDFDocument -> option Bytes
}.

(** [window.pdfjsLib.getDocument(data).promise] as a whole: it fails
    when the global is missing or the promise rejects. *)
Definition getDocument (env : Env) (data : Bytes)
    : option PdfJs.PDFDocumentProxy :=
  match pdfjsLib env with
  | Some pdfjs => pdfjs data
  | None => None
  end.

(** [window.PDFLib.PDFDocument.load(data)] as a whole. *)
Definition load (env : Env) (data : Bytes) : option PdfLib.PDFDocument :=
  match PDFLib env with
  | Some PDFDocument => PDFDocument data
  | None => None
  end.

(** A [try] block: the effects performed so far, and the value, or
    [None] once something has thrown or rejected. *)
Definition Try (A : Type) : Type := (list Effect * option A)%type.

Definition ret {A : Type} (a : A) : Try A := ([], Some a).

Definition bind {A B : Type} (c : Try A) (k : A -> Try B) : Try B :=
  match c with
  | (t1, Some a) => let '(t2, r) := k a in (t1 ++ t2, r)
  | (t1, None) => (t1, None)
  end.

Definition emit (e : Effect) : Try unit := ([e], Some tt).

(** A value that must not be [undefined]/rejected. *)
Definition lift {A : Type} (o : option A) : Try A := ([], o).

(** An external call: it is made, then it succeeds or fails. *)
Definition call {A : Type} (e : Effect) (o : option A) : Try A := ([e], o).

Declare Scope try_scope.
Delimit Scope try_scope with try.
Notation "x <- c ;; k" := (bind c (fun x => k))
  (at level 100, c at next level, right associativity) : try_scope.
Notation "'do' c ;; k" := (bind c (fun _ => k))
  (at level 100, c at next level, right associativity) : try_scope.

(** [for (const k in o)] with the loop-carried document. *)
Fixpoint forIn {S : Type} (keys : list Z) (body : Z -> S -> Try S)
    (s : S) : Try S :=
  match keys with
  | [] => ret s
  | k :: keys' => bind (body k s) (forIn keys' body)
  end.

(** [Object.keys(stamps)], also the order of [for ... in]: integer
    keys, ascending. *)
Definition Object_keys (o : StampState) : list Z :=
  merge_sort Z.le (map fst (map_to_list o)).

(** *** Stamps *)

(** [updateStamp]'s state updater: copy [prev], then set or delete
    the entry of [page]. *)
Definition updateStamp (page : Z) (newStamp : option Stamp)
    (prev : StampState) : StampState :=
  let newStamps := prev in
  match newStamp with
  | Some s => <[page := s]> newStamps
  | None => delete page newStamps
  end.

(** The object literal of [handleAddOrRemoveStamp]. *)
Definition defaultStamp : Stamp :=
  {| x := 100; y := 100; width := 120; height := 120; isPlaced := true |}.

Definition handleAddOrRemoveStamp (st : AppState) : AppState :=
  match stamps st !! currentPage st with
  | Some _ =>
      setStamps (updateStamp (currentPage st) None (stamps st)) st
  | None =>
      setStamps (updateStamp (currentPage st) (Some defaultStamp) (stamps st)) st
  end.

(** [onStampChange={(s) => updateStamp(pageNumber, s)}] *)
Definition onStampChange (pageNumber : Z) (s : option Stamp)
    (st : AppState) : AppState :=
  setStamps (updateStamp pageNumber s (stamps st)) st.

(** A window [mousemove] as the editor of [pageNumber] handles it:
    its [stamp] prop is [stamps[pageNumber]], and the updates it
    queues are applied in order. *)
Definition editorMouseMove (pageNumber : Z)
    (container : option PdfEditor.DOMRect) (es : PdfEditor.State)
    (e : PdfEditor.MouseEvent) (st : AppState) : AppState :=
  fold_left (fun acc s => onStampChange pageNumber s acc)
    (PdfEditor.handleMouseMove container (stamps st !! pageNumber) es e)
    st.

(** *** Navigation *)

(** [pdfDoc?.numPages || 0] *)
Definition numPages (st : AppState) : Z :=
  match pdfDoc st with
  | Some doc =>
      if PdfJs.numPages doc =? 0 then 0 else PdfJs.numPages doc
  | None => 0
  end.

Definition previousPage (st : AppState) : AppState :=
  setCurrentPage (Z.max 1 (currentPage st - 1)) st.

Definition nextPage (st : AppState) : AppState :=
  setCurrentPage (Z.min (numPages st) (currentPage st + 1)) st.

(** [Array.from({ length: numPages }, (_, i) => i + 1)] *)
Definition pageNumbers (st : AppState) : list Z :=
  map (fun i : nat => Z.of_nat i + 1) (seq 0 (Z.to_nat (numPages st))).

(** [onSelectPage={() => setCurrentPage(pageNumber)}] *)
Definition onSelectPage (pageNumber : Z) (st : AppState) : AppState :=
  setCurrentPage pageNumber st.

(** *** Select file *)

Definition handleFileChange (env : Env) (selectedFile : option File)
    (st : AppState) : AppState * list Effect :=
  let reject := (setError (Some "Please select a valid PDF file.") st, []) in
  match selectedFile with
  | Some selectedFile =>
      if String.eqb (type selectedFile) "application/pdf" then
        let st1 :=
          setCurrentPage 1
            (setStamps ∅
               (setPdfDoc None
                  (setFile (Some selectedFile)
                     (setStatus loading (setError None st))))) in
        let '(t, r) :=
          (buffer <- call (ReadFile selectedFile)
                       (arrayBuffer env selectedFile) ;;
           pdfjs <- lift (pdfjsLib env) ;;
           call (PdfJsGetDocument buffer) (pdfjs buffer))%try in
        match r with
        | Some doc => (setStatus ready (setPdfDoc (Some doc) st1), t)
        | None =>
            (setFile None
               (setStatus idle
                  (setError
                     (Some "Failed to load the PDF. Please try a different file.")
                     st1)),
             t ++ [ConsoleError "Error loading PDF:"])
        end
      else reject
  | None => reject
  end.

(** *** Export *)

(** One iteration of the [for ... in] loop of [handleDownload]; the
    key is already a number here, so [parseInt] is the identity.  The
    quotients are read exactly: what is stated of the rectangle below
    is its formula and identities between formulas, no bound. *)
Definition stampPage (pdfDoc : option PdfJs.PDFDocumentProxy)
    (stamps : StampState) (stampImage : PdfLib.PDFImage)
    (pageNum : Z) (pdfDocToModify : PdfLib.PDFDocument)
    : Try PdfLib.PDFDocument :=
  (let stampData := stamps !! pageNum in
   page <- lift (array_get (PdfLib.getPages pdfDocToModify) (pageNum - 1)) ;;
   let pageWidth := PdfLib.size_width (PdfLib.getSize page) in
   let pageHeight := PdfLib.size_height (PdfLib.getSize page) in
   doc <- lift pdfDoc ;;
   uiPage <- call (PdfJsGetPage pageNum) (PdfJs.getPage doc pageNum) ;;
   let viewport := PdfJs.getViewport uiPage 1 in
   let renderedPageWidth := PdfJs.width viewport in
   let scale := (renderedPageWidth / pageWidth)%Q in
   stampData <- lift stampData ;;
   let stampWidthPoints := (width stampData / scale)%Q in
   let stampHeightPoints := (height stampData / scale)%Q in
   let xPoints := (x stampData / scale)%Q in
   let yPoints := (pageHeight - (y stampData / scale) - stampHeightPoints)%Q in
   let options :=
     {| PdfLib.x := xPoints;
        PdfLib.y := yPoints;
        PdfLib.width := stampWidthPoints;
        PdfLib.height := stampHeightPoints;
        PdfLib.opacity := 0.85 |} in
   do emit (PdfLibDrawImage (pageNum - 1) options) ;;
   ret {| PdfLib.getPages :=
            array_set (PdfLib.getPages pdfDocToModify) (pageNum - 1)
              (PdfLib.drawImage stampImage options page) |})%try.

(** The body of the [try] block of [handleDownload].  It opens with
    [const { PDFDocument } = window.PDFLib], which throws before
    anything is read when the global is missing.  Building the Blob
    and the temporary link, clicking it and removing it are the one
    [Download] effect that ends the block; these DOM calls are taken
    not to throw. *)
Definition exportBody (env : Env) (file : File)
    (pdfDoc : option PdfJs.PDFDocumentProxy) (stamps : StampState)
    : Try unit :=
  (PDFDocument <- lift (PDFLib env) ;;
   existingPdfBytes <- call (ReadFile file) (arrayBuffer env file) ;;
   pdfDocToModify <- call (PdfLibLoad existingPdfBytes)
                       (PDFDocument existingPdfBytes) ;;
   stampImageBytes <- lift (stampImageBytes env) ;;
   stampImage <- call PdfLibEmbedPng
                   (embedPng env pdfDocToModify stampImageBytes) ;;
   stamped <- forIn (Object_keys stamps)
                (stampPage pdfDoc stamps stampImage) pdfDocToModify ;;
   pdfBytes <- call PdfLibSave (save env stamped) ;;
   emit (Download ("stamped_" +:+ name file) pdfBytes))%try.

Definition handleDownload (env : Env) (st : AppState)
    : AppState * list Effect :=
  let blocked :=
    (setError (Some "Please add at least one stamp before downloading.") st,
     []) in
  match file st with
  | None => blocked
  | Some f =>
      if (length (Object_keys (stamps st)) =? 0)%nat then blocked
      else
        let st1 := setStatus processing (setError None st) in
        let '(t, r) := exportBody env f (pdfDoc st) (stamps st) in
        let '(st2, t2) :=
          match r with
          | Some _ => (st1, t)
          | None =>
              (setError
                 (Some "An error occurred while creating the stamped PDF.")
                 st1,
               t ++ [ConsoleError "Error creating stamped PDF:"])
          end in
        (setStatus ready st2, t2)
  end.

(** *** The controller as a transition system *)

Inductive Event : Type :=
| FileChange (selectedFile : option File)
| PreviousPage
| NextPage
| SelectPage (pageNumber : Z)
| AddOrRemoveStamp
| MouseMove (pageNumber : Z) (container : option PdfEditor.DOMRect)
    (es : PdfEditor.State) (e : PdfEditor.MouseEvent)
| DownloadClick.

Definition handle (env : Env) (st : AppState) (ev : Event) : AppState :=
  match ev with
  | FileChange selectedFile => fst (handleFileChange env selectedFile st)
  | PreviousPage => previousPage st
  | NextPage => nextPage st
  | SelectPage pageNumber => onSelectPage pageNumber st
  | AddOrRemoveStamp => handleAddOrRemoveStamp st
  | MouseMove pageNumber container es e =>
      editorMouseMove pageNumber container es e st
  | DownloadClick => fst (handleDownload env st)
  end.

Definition run (env : Env) (evs : list Event) : AppState :=
  fold_left (handle env) evs initialState.

(** Every stamp stored in the mapping is placed. *)
Definition allPlaced (s : StampState) : Prop :=
  ∀ (p : Z) (stamp : Stamp), s !! p = Some stamp → isPlaced stamp = true.

(** *** What is rendered, and which controls respond *)

Definition Status_eqb (a b : Status) : bool :=
  match a, b with
  | idle, idle | loading, loading | ready, ready
  | processing, processing => true
  | _, _ => false
  end.

(** [{pdfDoc && status === 'ready' && (...)}]: the page buttons and the
    stamp button of the sidebar; [renderContent] mounts the editors
    under the same condition. *)
Definition controlsRendered (st : AppState) : bool :=
  match pdfDoc st with
  | Some _ => Status_eqb (status st) ready
  | None => false
  end.

(** [disabled={currentPage === 1}] *)
Definition previousDisabled (st : AppState) : bool := currentPage st =? 1.

(** [disabled={currentPage === numPages}] *)
Definition nextDisabled (st : AppState) : bool :=
  currentPage st =? numPages st.

(** [{status === 'ready' && <button onClick={handleDownload} ...>}] *)
Definition downloadRendered (st : AppState) : bool :=
  Status_eqb (status st) ready.

(** [disabled={Object.keys(stamps).length === 0}] *)
Definition downloadDisabled (st : AppState) : bool :=
  (length (Object_keys (stamps st)) =? 0)%nat.

(** The editor of [pageNumber] is mounted: it listens to the window's
    pointer moves and its wrapper can be clicked. *)
Definition editorMounted (st : AppState) (pageNumber : Z) : bool :=
  controlsRendered st && bool_decide (pageNumber ∈ pageNumbers st).

(** Whether the page, as rendered in [st], lets [ev] reach its handler.
    The sidebar's file input is always there. *)
Definition enabled (st : AppState) (ev : Event) : bool :=
  match ev with
  | FileChange _ => true
  | PreviousPage => controlsRendered st && negb (previousDisabled st)
  | NextPage => controlsRendered st && negb (nextDisabled st)
  | SelectPage pageNumber => editorMounted st pageNumber
  | AddOrRemoveStamp => controlsRendered st
  | MouseMove pageNumber _ _ _ => editorMounted st pageNumber
  | DownloadClick => downloadRendered st && negb (downloadDisabled st)
  end.

(** A session in which every handler, awaits included, has finished
    before the next event arrives; [None] when an event could not have
    been delivered. *)
Fixpoint sessionFrom (env : Env) (st : AppState) (evs : list Event)
    : option AppState :=
  match evs with
  | [] => Some st
  | ev :: evs' =>
      if enabled st ev then sessionFrom env (handle env st ev) evs' else None
  end.

Definition session (env : Env) (evs : list Event) : option AppState :=
  sessionFrom env initialState evs.

(** What such a session keeps true. *)
Definition consistent (st : AppState) : Prop :=
  match pdfDoc st with
  | Some doc =>
      status st = ready ∧ is_Some (file st) ∧
      1 ≤ currentPage st ≤ numPages st ∧
      ∀ p, is_Some (stamps st !! p) → 1 ≤ p ≤ numPages st
  | None => status st = idle ∧ stamps st = ∅ ∧ currentPage st = 1
  end.

End App.

(** ** The conversion as the spec words it

    Section 4.5, steps 2 to 4: [scale = renderedWidth / pageWidth], the
    stamp's width, height and x are divided by [scale], and
    [y = pageHeight - stampY / scale - stampHeightPoints]; step 5 fixes
    the opacity. *)

Module Spec.

Definition pointRectangle (stamp : Types.Stamp)
    (renderedWidth pageWidth pageHeight : Q) : PdfLib.DrawImageOptions :=
  let scale := (renderedWidth / pageWidth)%Q in
  {| PdfLib.x := (Types.x stamp / scale)%Q;
     PdfLib.y :=
       (pageHeight - (Types.y stamp / scale) - (Types.height stamp / scale))%Q;
     PdfLib.width := (Types.width stamp / scale)%Q;
     PdfLib.height := (Types.height stamp / scale)%Q;
     PdfLib.opacity := 0.85 |}.

(** The page sizes of a document, which drawing does not change. *)
Definition sizes (document : PdfLib.PDFDocument) : list PdfLib.Size :=
  PdfLib.getSize <$> PdfLib.getPages document.

End Spec.

(** ** A sample session, used to exercise the statements below

    A two-page US-Letter document whose preview viewport is as wide as
    the page, every external call succeeding. *)

Module Sample.
Import Types App.

Definition letter : PdfJs.PDFPageProxy :=
  {| PdfJs.getViewport := fun scale =>
       {| PdfJs.width := 612 * scale; PdfJs.height := 792 * scale |} |}.

Definition preview : PdfJs.PDFDocumentProxy :=
  {| PdfJs.numPages := 2;
     PdfJs.getPage := fun n =>
       if (1 <=? n) && (n <=? 2) then Some letter else None |}.

Definition blank : PdfLib.PDFPage :=
  {| PdfLib.getSize := {| PdfLib.size_width := 612; PdfLib.size_height := 792 |};
     PdfLib.drawn := [] |}.

Definition document : PdfLib.PDFDocument :=
  {| PdfLib.getPages := [blank; blank] |}.

Definition pdf : File := {| name := "deed.pdf"; type := "application/pdf" |}.

Definition text : File := {| name := "notes.txt"; type := "text/plain" |}.

Definition env : Env :=
  {| arrayBuffer := fun _ => Some [];
     pdfjsLib := Some (fun _ => Some preview);
     PDFLib := Some (fun _ => Some document);
     stampImageBytes := Some [];
     embedPng := fun _ data => Some {| PdfLib.png := data |};
     save := fun _ => Some [] |}.

(** As [env], but serializing the stamped document fails. *)
Definition failingEnv : Env :=
  {| arrayBuffer := fun _ => Some [];
     pdfjsLib := Some (fun _ => Some preview);
     PDFLib := Some (fun _ => Some document);
     stampImageBytes := Some [];
     embedPng := fun _ data => Some {| PdfLib.png := data |};
     save := fun _ => None |}.

(** As [env], but the pdf-lib script did not load. *)
Definition offline : Env :=
  {| arrayBuffer := fun _ => Some [];
     pdfjsLib := Some (fun _ => Some preview);
     PDFLib := None;
     stampImageBytes := Some [];
     embedPng := fun _ data => Some {| PdfLib.png := data |};
     save := fun _ => Some [] |}.

Definition dragging : PdfEditor.State :=
  {| PdfEditor.isDragging := true; PdfEditor.isResizing := false;
     PdfEditor.dragOffset := PdfEditor.Coords.mk 10 10 |}.

Definition resizing : PdfEditor.State :=
  {| PdfEditor.isDragging := false; PdfEditor.isResizing := true;
     PdfEditor.dragOffset := PdfEditor.Coords.mk 0 0 |}.

Definition origin : PdfEditor.DOMRect :=
  {| PdfEditor.left := 0; PdfEditor.top := 0 |}.




(** After loading [pdf] and adding a stamp on page 1. *)
Definition stamped : AppState :=
  run env [FileChange (Some pdf); AddOrRemoveStamp].

(** Then dragging that stamp: grabbed at (10,10) from its corner, the
    pointer now at (300,200). *)
Definition dragged : AppState :=
  run env [FileChange (Some pdf); AddOrRemoveStamp;
           MouseMove 1 (Some origin) dragging
             {| PdfEditor.clientX := 300; PdfEditor.clientY := 200 |}].

(** A stamp that was dragged to the top-left corner. *)
Definition moved : Stamp :=
  {| x := 0; y := 0; width := 120; height := 120; isPlaced := true |}.

End Sample.

(** * Properties *)

Import Types App.

(** ** Update stamp *)

Lemma updateStamp_lookup_ne (s : StampState) (p q : Z) (v : option Stamp) :
  q ≠ p → updateStamp p v s !! q = s !! q.
Proof.
  intros Hne. unfold updateStamp. destruct v as [stamp|].
  - apply lookup_insert_ne. congruence.
  - apply lookup_delete_ne. congruence.
Qed.

Lemma updateStamp_lookup_eq (s : StampState) (p : Z) (v : option Stamp) :
  updateStamp p v s !! p = v.
Proof.
  unfold updateStamp. destruct v as [stamp|].
  - apply lookup_insert_eq.
  - apply lookup_delete_eq.
Qed.

(** C10.  [updateStamp p v] changes no entry but the one of [p], whatever
    [v] is (insertion, replacement or deletion), and deleting an entry
    that is not there gives back the same mapping. *)
Theorem updateStamp_frame (s : StampState) (p q : Z) (v : option Stamp) :
  (q ≠ p → updateStamp p v s !! q = s !! q) ∧
  (s !! p = None → updateStamp p None s = s).
Proof.
  split.
  - apply updateStamp_lookup_ne.
  - intros Hnone. unfold updateStamp. by apply delete_id.
Qed.

Lemma updateStamp_frame_witness :
  updateStamp 1 (Some Sample.moved) {[ 2 := defaultStamp ]} !! 2
    = Some defaultStamp
  ∧ updateStamp 1 None {[ 2 := defaultStamp ]} = {[ 2 := defaultStamp ]}.
Proof.
  split.
  - rewrite (proj1 (updateStamp_frame {[ 2 := defaultStamp ]} 1 2
                      (Some Sample.moved))); [reflexivity | lia].
  - apply (proj2 (updateStamp_frame {[ 2 := defaultStamp ]} 1 2 None)).
    reflexivity.
Defined.

(** ** Toggle stamp *)

Lemma toggle_absent (st : AppState) :
  stamps st !! currentPage st = None →
  handleAddOrRemoveStamp st
    = setStamps (<[currentPage st := defaultStamp]> (stamps st)) st.
Proof. intros H. unfold handleAddOrRemoveStamp. by rewrite H. Qed.

Lemma toggle_present (st : AppState) (s : Stamp) :
  stamps st !! currentPage st = Some s →
  handleAddOrRemoveStamp st
    = setStamps (delete (currentPage st) (stamps st)) st.
Proof. intros H. unfold handleAddOrRemoveStamp. by rewrite H. Qed.

(** C2, as the spec states it, fails: on a page whose stamp was dragged
    away from the default geometry, the first toggle removes the stamp
    and the second one creates the default stamp, not the dragged one. *)
Lemma toggle_twice_counterexample :
  stamps Sample.dragged !! 1
    = Some {| x := 300 - 0 - 10; y := 200 - 0 - 10;
              width := 120; height := 120; isPlaced := true |} ∧
  stamps (handleAddOrRemoveStamp (handleAddOrRemoveStamp Sample.dragged)) !! 1
    = Some defaultStamp ∧
  stamps (handleAddOrRemoveStamp (handleAddOrRemoveStamp Sample.dragged))
    ≠ stamps Sample.dragged.
Proof.
  assert (Hbefore : stamps Sample.dragged !! 1
            = Some {| x := 300 - 0 - 10; y := 200 - 0 - 10;
                      width := 120; height := 120; isPlaced := true |})
    by reflexivity.
  assert (Hafter : stamps (handleAddOrRemoveStamp
                     (handleAddOrRemoveStamp Sample.dragged)) !! 1
            = Some defaultStamp) by reflexivity.
  split; [done|]. split; [done|].
  intros Heq. rewrite Heq, Hbefore in Hafter. discriminate Hafter.
Qed.

(** C2, amended.  Two toggles in succession on the active page [p]
    leave every other page's entry and every other state cell as they
    were; they give back the prior StampState when [p] had no stamp,
    and when [p] had a stamp they leave [p] with the default stamp. *)
Theorem toggle_twice (st : AppState) :
  let p := currentPage st in
  let st2 := handleAddOrRemoveStamp (handleAddOrRemoveStamp st) in
  (stamps st !! p = None → st2 = st) ∧
  (∀ s, stamps st !! p = Some s →
        st2 = setStamps (<[p := defaultStamp]> (stamps st)) st) ∧
  (∀ q, q ≠ p → stamps st2 !! q = stamps st !! q).
Proof.
  cbn zeta. destruct (stamps st !! currentPage st) as [s|] eqn:Hp.
  - (* remove, then add the default stamp *)
    rewrite (toggle_present st s Hp).
    rewrite toggle_absent; cbn; [|by rewrite lookup_delete_eq].
    rewrite insert_delete_eq.
    split; [discriminate|]. split; [by intros|].
    intros q Hq. by rewrite lookup_insert_ne.
  - (* add the default stamp, then remove it *)
    rewrite (toggle_absent st Hp).
    erewrite toggle_present; cbn; [|by rewrite lookup_insert_eq].
    rewrite delete_insert_eq, delete_id by done.
    split; [by destruct st|]. split; [discriminate|]. done.
Qed.

Lemma toggle_twice_witness :
  handleAddOrRemoveStamp (handleAddOrRemoveStamp initialState) = initialState
  ∧ handleAddOrRemoveStamp (handleAddOrRemoveStamp Sample.stamped)
    = setStamps (<[1 := defaultStamp]> (stamps Sample.stamped)) Sample.stamped.
Proof.
  split.
  - apply (proj1 (toggle_twice initialState)). reflexivity.
  - apply (proj1 (proj2 (toggle_twice Sample.stamped)) defaultStamp).
    reflexivity.
Defined.

(** ** Navigate page *)

Lemma pageNumbers_lookup (st : AppState) (i : nat) (pageNumber : Z) :
  pageNumbers st !! i = Some pageNumber →
  pageNumber = Z.of_nat i + 1 ∧ 1 ≤ pageNumber ≤ numPages st.
Proof.
  unfold pageNumbers. rewrite list_lookup_fmap.
  destruct (seq 0 (Z.to_nat (numPages st)) !! i) as [j|] eqn:Hj;
    [|discriminate].
  apply lookup_seq in Hj as [-> Hlt]. cbn. intros [= <-]. lia.
Qed.

(** C4.  With a document of at least one page loaded and the current
    page in range, each navigation operation sets the current page as
    the spec says and keeps [1 ≤ currentPage ≤ numPages]: previous-page
    gives [max 1 (currentPage - 1)], next-page gives
    [min numPages (currentPage + 1)], and selecting the [i]-th rendered
    page gives its 1-based number [i + 1]. *)
Theorem navigation_in_range (st : AppState) :
  1 ≤ numPages st →
  1 ≤ currentPage st ≤ numPages st →
  (currentPage (previousPage st) = Z.max 1 (currentPage st - 1) ∧
   1 ≤ currentPage (previousPage st) ≤ numPages (previousPage st)) ∧
  (currentPage (nextPage st) = Z.min (numPages st) (currentPage st + 1) ∧
   1 ≤ currentPage (nextPage st) ≤ numPages (nextPage st)) ∧
  (∀ (i : nat) (pageNumber : Z),
     pageNumbers st !! i = Some pageNumber →
     pageNumber = Z.of_nat i + 1 ∧
     currentPage (onSelectPage pageNumber st) = pageNumber ∧
     1 ≤ currentPage (onSelectPage pageNumber st)
       ≤ numPages (onSelectPage pageNumber st)).
Proof.
  intros Hn Hcur.
  assert (Hnum : ∀ v, numPages (setCurrentPage v st) = numPages st)
    by reflexivity.
  unfold previousPage, nextPage, onSelectPage. rewrite !Hnum.
  split; [|split].
  - cbn. lia.
  - cbn. lia.
  - intros i pageNumber Hi. rewrite Hnum.
    apply pageNumbers_lookup in Hi as [-> Hrange]. cbn. lia.
Qed.

Lemma navigation_in_range_witness :
  currentPage (previousPage Sample.stamped) = 1 ∧
  currentPage (nextPage Sample.stamped) = 2 ∧
  currentPage (onSelectPage 2 Sample.stamped) = 2.
Proof.
  assert (Hn : 1 ≤ numPages Sample.stamped) by (vm_compute; discriminate).
  assert (Hc : 1 ≤ currentPage Sample.stamped ≤ numPages Sample.stamped)
    by (vm_compute; split; discriminate).
  destruct (navigation_in_range Sample.stamped Hn Hc) as [[Hp _] [[Hx _] Hs]].
  split; [|split].
  - rewrite Hp. reflexivity.
  - rewrite Hx. reflexivity.
  - apply (Hs 1%nat 2). reflexivity.
Defined.

(** ** Every stored stamp is placed *)

Section Placed.

Lemma allPlaced_empty : allPlaced ∅.
Proof. intros p stamp H. by rewrite lookup_empty in H. Qed.

Lemma allPlaced_updateStamp (s : StampState) (p : Z) (v : option Stamp) :
  allPlaced s →
  (∀ stamp, v = Some stamp → isPlaced stamp = true) →
  allPlaced (updateStamp p v s).
Proof.
  intros Hs Hv q stamp Hq. destruct (decide (q = p)) as [->|Hne].
  - rewrite updateStamp_lookup_eq in Hq. by apply Hv.
  - rewrite updateStamp_lookup_ne in Hq by done. by apply (Hs q).
Qed.

(** Both kinds of update spread the [stamp] prop, so they carry its
    flag over. *)
Lemma handleMouseMove_isPlaced container stamp es e (c : option Stamp) :
  c ∈ PdfEditor.handleMouseMove container (Some stamp) es e →
  ∃ s', c = Some s' ∧ isPlaced s' = isPlaced stamp.
Proof.
  unfold PdfEditor.handleMouseMove.
  destruct (PdfEditor.isDragging es), (PdfEditor.isResizing es); cbn;
    intros Hin; repeat (apply elem_of_cons in Hin as [->|Hin]);
    try (by apply elem_of_nil in Hin); eauto.
Qed.

Lemma allPlaced_fold_updates (p : Z) (calls : list (option Stamp)) :
  (∀ c stamp, c ∈ calls → c = Some stamp → isPlaced stamp = true) →
  ∀ st, allPlaced (stamps st) →
  allPlaced (stamps (fold_left (fun acc s => onStampChange p s acc) calls st)).
Proof.
  induction calls as [|c calls IH]; intros Hcalls st Hst; [done|].
  cbn [fold_left]. apply IH.
  - intros c' stamp Hin. apply Hcalls. by apply list_elem_of_further.
  - cbn. apply allPlaced_updateStamp; [done|].
    intros stamp. apply Hcalls, list_elem_of_here.
Qed.

Lemma allPlaced_editorMouseMove p container es e (st : AppState) :
  allPlaced (stamps st) →
  allPlaced (stamps (editorMouseMove p container es e st)).
Proof.
  intros Hst. unfold editorMouseMove.
  destruct (stamps st !! p) as [stamp|] eqn:Hp; [|done].
  apply allPlaced_fold_updates; [|done].
  intros c s' Hin ->.
  apply handleMouseMove_isPlaced in Hin as (s'' & [= <-] & ->).
  by apply (Hst p).
Qed.

Lemma allPlaced_toggle (st : AppState) :
  allPlaced (stamps st) → allPlaced (stamps (handleAddOrRemoveStamp st)).
Proof.
  intros Hst. unfold handleAddOrRemoveStamp.
  destruct (stamps st !! currentPage st); cbn [stamps setStamps];
    apply allPlaced_updateStamp; try done.
  by intros stamp [= <-].
Qed.

Lemma stamps_handleFileChange env selectedFile (st : AppState) :
  stamps (handleFileChange env selectedFile st).1 = stamps st ∨
  stamps (handleFileChange env selectedFile st).1 = ∅.
Proof.
  unfold handleFileChange. destruct selectedFile as [f|]; [|by left].
  destruct (String.eqb (type f) "application/pdf"); [|by left].
  right. cbn. destruct (arrayBuffer env f) as [buffer|]; cbn; [|done].
  destruct (pdfjsLib env) as [pdfjs|]; cbn; [|done].
  by destruct (pdfjs buffer).
Qed.

Lemma stamps_handleDownload env (st : AppState) :
  stamps (handleDownload env st).1 = stamps st.
Proof.
  unfold handleDownload. destruct (file st) as [f|]; [|done].
  destruct (length (Object_keys (stamps st)) =? 0)%nat; [done|].
  destruct (exportBody env f (pdfDoc st) (stamps st)) as [t [[]|]]; done.
Qed.

Lemma allPlaced_handle env (st : AppState) (ev : Event) :
  allPlaced (stamps st) → allPlaced (stamps (handle env st ev)).
Proof.
  intros Hst. destruct ev; cbn [handle]; try done.
  - destruct (stamps_handleFileChange env selectedFile st) as [-> | ->];
      [done | apply allPlaced_empty].
  - by apply allPlaced_toggle.
  - by apply allPlaced_editorMouseMove.
  - by rewrite stamps_handleDownload.
Qed.

End Placed.

(** C9.  Every operation of the controller keeps all stored stamps
    placed: toggling, a drag or resize update of any page's overlay in
    any interaction state, and every other event.  Removing the active
    page's stamp deletes its key.  Hence no state reached from the
    initial one holds an entry with [isPlaced = false]. *)
Theorem stamps_stay_placed (env : Env) :
  (∀ st ev, allPlaced (stamps st) → allPlaced (stamps (handle env st ev))) ∧
  (∀ st stamp, stamps st !! currentPage st = Some stamp →
     stamps (handleAddOrRemoveStamp st) !! currentPage st = None) ∧
  (∀ evs p stamp, stamps (run env evs) !! p = Some stamp →
     isPlaced stamp = true).
Proof.
  split; [|split].
  - intros st ev. apply allPlaced_handle.
  - intros st stamp Hp. rewrite (toggle_present st stamp Hp). cbn.
    apply lookup_delete_eq.
  - intros evs. unfold run.
    enough (H : ∀ st, allPlaced (stamps st) →
                      allPlaced (stamps (fold_left (handle env) evs st)))
      by apply H, allPlaced_empty.
    induction evs as [|ev evs IH]; intros st Hst; [done|].
    cbn [fold_left]. by apply IH, allPlaced_handle.
Qed.

Lemma stamps_stay_placed_witness :
  stamps (handleAddOrRemoveStamp Sample.stamped) !! 1 = None ∧
  allPlaced (stamps (handle Sample.env Sample.stamped
    (MouseMove 1 (Some Sample.origin) Sample.dragging
       {| PdfEditor.clientX := 300; PdfEditor.clientY := 200 |}))).
Proof.
  destruct (stamps_stay_placed Sample.env) as (Hstep & Hremove & Hreach).
  split.
  - apply (Hremove Sample.stamped defaultStamp). reflexivity.
  - apply Hstep. intros p stamp. apply (Hreach _ p stamp).
Defined.

(** ** The library globals *)

Lemma load_Some env data document :
  load env data = Some document →
  ∃ PDFDocument, PDFLib env = Some PDFDocument ∧
                 PDFDocument data = Some document.
Proof.
  unfold load. destruct (PDFLib env) as [PDFDocument|]; [|discriminate].
  intros Hload. by exists PDFDocument.
Qed.

Lemma getDocument_Some env data doc :
  getDocument env data = Some doc →
  ∃ pdfjs, pdfjsLib env = Some pdfjs ∧ pdfjs data = Some doc.
Proof.
  unfold getDocument. destruct (pdfjsLib env) as [pdfjs|]; [|discriminate].
  intros Hdoc. by exists pdfjs.
Qed.

(** ** The keys of a StampState *)

Lemma Object_keys_elem (s : StampState) (p : Z) :
  p ∈ Object_keys s ↔ is_Some (s !! p).
Proof.
  unfold Object_keys. rewrite merge_sort_Permutation, list_elem_of_fmap.
  split.
  - intros ([q stamp] & -> & Hin). apply elem_of_map_to_list in Hin. eauto.
  - intros [stamp Hp]. exists (p, stamp). split; [done|].
    by apply elem_of_map_to_list.
Qed.

Lemma Object_keys_length (s : StampState) :
  length (Object_keys s) = size s.
Proof.
  unfold Object_keys.
  by rewrite merge_sort_Permutation, length_fmap, length_map_to_list.
Qed.

Lemma Object_keys_none (s : StampState) :
  (length (Object_keys s) =? 0)%nat = true ↔ s = ∅.
Proof.
  rewrite Object_keys_length, Nat.eqb_eq. apply map_size_empty_iff.
Qed.

Lemma Object_keys_sorted (s : StampState) : Sorted Z.le (Object_keys s).
Proof. apply (Sorted_merge_sort Z.le). Qed.

(** ** Export: the guard *)

(** C5.  Export with no file loaded, or with no stamp in StampState,
    only sets the error message: no library call is made, nothing is
    downloaded, and file, document handle, current page, stamps and
    status keep their values. *)
Theorem export_blocked (env : Env) (st : AppState) :
  file st = None ∨ stamps st = ∅ →
  let '(st', effects) := handleDownload env st in
  effects = [] ∧
  error st' = Some "Please add at least one stamp before downloading." ∧
  status st' = status st ∧ stamps st' = stamps st ∧ file st' = file st ∧
  currentPage st' = currentPage st ∧ pdfDoc st' = pdfDoc st.
Proof.
  intros Hguard. unfold handleDownload.
  destruct (file st) as [f|] eqn:Hfile.
  - destruct Hguard as [?|Hempty]; [done|].
    apply Object_keys_none in Hempty. rewrite Hempty. cbn.
    by rewrite Hfile.
  - cbn. by rewrite Hfile.
Qed.

Lemma export_blocked_witness :
  (handleDownload Sample.env initialState).2 = [] ∧
  (handleDownload Sample.env (handleAddOrRemoveStamp Sample.stamped)).2 = [].
Proof.
  split.
  - pose proof (export_blocked Sample.env initialState (or_introl eq_refl))
      as H.
    destruct (handleDownload Sample.env initialState) as [st' effects].
    apply H.
  - pose proof (export_blocked Sample.env
                  (handleAddOrRemoveStamp Sample.stamped)
                  (or_intror eq_refl)) as H.
    destruct (handleDownload Sample.env
                (handleAddOrRemoveStamp Sample.stamped)) as [st' effects].
    apply H.
Defined.

(** ** Select file *)

(** C7.  Selecting a file whose declared type is not [application/pdf]
    (or selecting nothing) only sets the error message: nothing is
    read or parsed, and file, document handle, current page, stamps
    and status keep their values. *)
Theorem non_pdf_rejected (env : Env) (selectedFile : option File)
    (st : AppState) :
  (∀ f, selectedFile = Some f → type f ≠ "application/pdf") →
  let '(st', effects) := handleFileChange env selectedFile st in
  effects = [] ∧
  error st' = Some "Please select a valid PDF file." ∧
  status st' = status st ∧ file st' = file st ∧ pdfDoc st' = pdfDoc st ∧
  stamps st' = stamps st ∧ currentPage st' = currentPage st.
Proof.
  intros Htype. unfold handleFileChange.
  destruct selectedFile as [f|]; [|done].
  specialize (Htype f eq_refl). apply String.eqb_neq in Htype.
  by rewrite Htype.
Qed.

Lemma non_pdf_rejected_witness :
  handleFileChange Sample.env (Some Sample.text) initialState
  = (setError (Some "Please select a valid PDF file.") initialState, []).
Proof.
  assert (Htype : ∀ f, Some Sample.text = Some f →
                       type f ≠ "application/pdf").
  { intros f [= <-]. discriminate. }
  pose proof (non_pdf_rejected Sample.env (Some Sample.text) initialState
                Htype) as H.
  destruct (handleFileChange Sample.env (Some Sample.text) initialState)
    as [st' effects].
  destruct H as (-> & He & Hs & Hf & Hd & Hst & Hc).
  destruct st'; cbn in *. by subst.
Defined.

(** ** Export: failure *)

Lemma bind_effects {A B : Type} (c : Try A) (k : A → Try B) :
  (bind c k).1 = c.1 ++ from_option (λ a, (k a).1) [] c.2.
Proof.
  destruct c as [t1 [a|]]; cbn.
  - by destruct (k a).
  - by rewrite app_nil_r.
Qed.

Lemma bind_result {A B : Type} (c : Try A) (k : A → Try B) :
  (bind c k).2 = c.2 ≫= (λ a, (k a).2).
Proof.
  destruct c as [t1 [a|]]; cbn; [|done]. by destruct (k a).
Qed.

Ltac no_download :=
  rewrite ?elem_of_app, ?elem_of_cons, ?elem_of_nil;
  intuition discriminate.

Ltac try_step :=
  cbn [call lift emit ret fst snd from_option mbind option_bind app];
  rewrite ?bind_effects, ?bind_result;
  cbn [call lift emit ret fst snd from_option mbind option_bind app].

(** An iteration reads one preview page and draws one image; it
    never downloads. *)
Lemma stampPage_effects pdfDoc stamps stampImage pageNum document e :
  e ∈ (stampPage pdfDoc stamps stampImage pageNum document).1 →
  e = PdfJsGetPage pageNum ∨
  ∃ options, e = PdfLibDrawImage (pageNum - 1) options.
Proof.
  unfold stampPage.
  destruct (array_get (PdfLib.getPages document) (pageNum - 1)) as [page|];
    cbn; [|by intros ?%elem_of_nil].
  destruct pdfDoc as [doc|]; cbn; [|by intros ?%elem_of_nil].
  destruct (PdfJs.getPage doc pageNum) as [uiPage|]; cbn;
    [destruct (stamps !! pageNum) as [stampData|]; cbn|];
    rewrite ?elem_of_cons, ?elem_of_nil; intuition eauto.
Qed.

Lemma forIn_effects pdfDoc stamps stampImage keys document e :
  e ∈ (forIn keys (stampPage pdfDoc stamps stampImage) document).1 →
  ∃ pageNum, pageNum ∈ keys ∧
    (e = PdfJsGetPage pageNum ∨
     ∃ options, e = PdfLibDrawImage (pageNum - 1) options).
Proof.
  revert document.
  induction keys as [|k keys IH]; intros document; cbn [forIn].
  - by intros ?%elem_of_nil.
  - rewrite bind_effects. intros [Hin|Hin]%elem_of_app.
    + exists k. split; [apply list_elem_of_here|].
      by eapply stampPage_effects.
    + destruct (stampPage pdfDoc stamps stampImage k document).2
        as [document'|]; cbn in Hin; [|by apply elem_of_nil in Hin].
      apply IH in Hin as (pageNum & Hk & He).
      exists pageNum. split; [by apply list_elem_of_further|done].
Qed.

(** A [try] body that fails has not reached the download. *)
Lemma exportBody_failed_no_download env f pdfDoc stamps filename data :
  (exportBody env f pdfDoc stamps).2 = None →
  Download filename data ∉ (exportBody env f pdfDoc stamps).1.
Proof.
  unfold exportBody. try_step.
  destruct (PDFLib env) as [PDFDocument|]; try_step;
    [|intros _; no_download].
  destruct (arrayBuffer env f) as [existingPdfBytes|]; try_step;
    [|intros _; no_download].
  destruct (PDFDocument existingPdfBytes) as [pdfDocToModify|]; try_step;
    [|intros _; no_download].
  destruct (stampImageBytes env) as [imageBytes|]; try_step;
    [|intros _; no_download].
  destruct (embedPng env pdfDocToModify imageBytes) as [stampImage|];
    try_step; [|intros _; no_download].
  intros Hfail Hin.
  repeat (apply elem_of_cons in Hin as [[=]|Hin]).
  apply elem_of_app in Hin as [Hin|Hin].
  { apply forIn_effects in Hin as (? & _ & [[=]|[? [=]]]). }
  destruct (forIn (Object_keys stamps) (stampPage pdfDoc stamps stampImage)
              pdfDocToModify).2 as [stamped|];
    cbn [from_option mbind option_bind] in *; [|by apply elem_of_nil in Hin].
  revert Hfail Hin. try_step.
  destruct (save env stamped) as [pdfBytes|]; [done|].
  intros _. cbn. no_download.
Qed.

(** C6.  When a step of the export fails (the [try] body does not
    complete), the handler ends with the generic error message in the
    error cell and status [ready], every other state cell as before,
    and no download among its effects; the failure is logged once. *)
Theorem export_failure_aborts (env : Env) (st : AppState) (f : File) :
  file st = Some f →
  stamps st ≠ ∅ →
  (exportBody env f (pdfDoc st) (stamps st)).2 = None →
  let '(st', effects) := handleDownload env st in
  st' = setStatus ready
          (setError (Some "An error occurred while creating the stamped PDF.")
             st) ∧
  (∀ filename data, Download filename data ∉ effects) ∧
  effects = (exportBody env f (pdfDoc st) (stamps st)).1
            ++ [ConsoleError "Error creating stamped PDF:"].
Proof.
  intros Hfile Hstamps Hfail. unfold handleDownload. rewrite Hfile.
  destruct (length (Object_keys (stamps st)) =? 0)%nat eqn:Hkeys.
  { by apply Object_keys_none in Hkeys. }
  pose proof (exportBody_failed_no_download env f (pdfDoc st) (stamps st))
    as Hno.
  destruct (exportBody env f (pdfDoc st) (stamps st)) as [t r].
  cbn in Hfail. subst r. split; [done|]. split; [|done].
  intros filename data [Hin|[[=]|?%elem_of_nil]%elem_of_cons]%elem_of_app;
    [|done].
  by apply (Hno filename data).
Qed.

Lemma export_failure_aborts_witness :
  let '(st', effects) := handleDownload Sample.failingEnv Sample.stamped in
  status st' = ready ∧
  error st' = Some "An error occurred while creating the stamped PDF." ∧
  ∀ filename data, Download filename data ∉ effects.
Proof.
  assert (Hne : stamps Sample.stamped ≠ ∅).
  { intros Heq. apply (f_equal (λ s : StampState, s !! 1)) in Heq.
    vm_compute in Heq. discriminate Heq. }
  pose proof (export_failure_aborts Sample.failingEnv Sample.stamped
                Sample.pdf eq_refl Hne eq_refl) as H.
  destruct (handleDownload Sample.failingEnv Sample.stamped)
    as [st' effects].
  destruct H as (-> & Hno & _). done.
Defined.

(** ** The overlay: drag *)

(** An editor's queued updates reach the controller in order, so a
    single update replaces the page's entry. *)
Lemma editorMouseMove_single p container es e (st : AppState) stamp s' :
  stamps st !! p = Some stamp →
  PdfEditor.handleMouseMove container (Some stamp) es e = [Some s'] →
  stamps (editorMouseMove p container es e st) = <[p := s']> (stamps st).
Proof.
  intros Hp Hcalls. unfold editorMouseMove. rewrite Hp, Hcalls. reflexivity.
Qed.

(** C8.  Pointer-down on the stamp's body turns dragging on and
    captures, as grab offset, the pointer position relative to the page
    container minus the stamp's corner.  Until pointer-up, whether or
    not the resize handle is pressed meanwhile, the update a pointer
    move hands over for the drag is the first one, and it is the stamp
    with [x], [y] set to the pointer position relative to the page
    container minus that grab offset and with [width], [height] and
    [isPlaced] as they were.  When no resize is under way it is the
    only update, and it becomes the page's entry. *)
Theorem drag_moves_only_position (rect0 rect : PdfEditor.DOMRect)
    (stamp0 stamp : Stamp) (es0 : PdfEditor.State)
    (e0 e : PdfEditor.MouseEvent) (handlePressed : bool) :
  let pressed :=
    PdfEditor.handleStampMouseDown (Some rect0) (Some stamp0) e0 es0 in
  let es :=
    if handlePressed then PdfEditor.handleResizeHandleMouseDown pressed
    else pressed in
  let grabX := (PdfEditor.clientX e0 - PdfEditor.left rect0 - x stamp0)%Q in
  let grabY := (PdfEditor.clientY e0 - PdfEditor.top rect0 - y stamp0)%Q in
  PdfEditor.isDragging es = true ∧
  PdfEditor.dragOffset es = PdfEditor.Coords.mk grabX grabY ∧
  ∃ s',
    head (PdfEditor.handleMouseMove (Some rect) (Some stamp) es e)
      = Some (Some s') ∧
    x s' = (PdfEditor.clientX e - PdfEditor.left rect - grabX)%Q ∧
    y s' = (PdfEditor.clientY e - PdfEditor.top rect - grabY)%Q ∧
    width s' = width stamp ∧
    height s' = height stamp ∧
    isPlaced s' = isPlaced stamp ∧
    (PdfEditor.isResizing es = false →
     PdfEditor.handleMouseMove (Some rect) (Some stamp) es e = [Some s'] ∧
     ∀ (st : AppState) (p : Z),
       stamps st !! p = Some stamp →
       stamps (editorMouseMove p (Some rect) es e st)
       = <[p := s']> (stamps st)).
Proof.
  intros pressed es grabX grabY.
  assert (Hdrag : PdfEditor.isDragging es = true)
    by (unfold es; by destruct handlePressed).
  assert (Hoffset : PdfEditor.dragOffset es = PdfEditor.Coords.mk grabX grabY)
    by (unfold es; by destruct handlePressed).
  split; [done|]. split; [done|].
  exists (PdfEditor.dragUpdate stamp
            (PdfEditor.getRelativeCoords (Some rect) e)
            (PdfEditor.dragOffset es)).
  split.
  { unfold PdfEditor.handleMouseMove. rewrite Hdrag. reflexivity. }
  rewrite Hoffset. do 5 (split; [reflexivity|]).
  intros Hresize.
  assert (Hcalls :
    PdfEditor.handleMouseMove (Some rect) (Some stamp) es e
    = [Some (PdfEditor.dragUpdate stamp
               (PdfEditor.getRelativeCoords (Some rect) e)
               (PdfEditor.Coords.mk grabX grabY))]).
  { unfold PdfEditor.handleMouseMove.
    by rewrite Hdrag, Hresize, Hoffset. }
  split; [done|]. intros st p Hp.
  by apply (editorMouseMove_single p (Some rect) es e st stamp).
Qed.

Lemma drag_moves_only_position_witness :
  PdfEditor.handleMouseMove (Some Sample.origin) (Some defaultStamp)
    (PdfEditor.handleStampMouseDown (Some Sample.origin) (Some defaultStamp)
       {| PdfEditor.clientX := 110; PdfEditor.clientY := 130 |}
       PdfEditor.initialState)
    {| PdfEditor.clientX := 300; PdfEditor.clientY := 200 |}
  = [Some {| x := 300 - 0 - (110 - 0 - 100); y := 200 - 0 - (130 - 0 - 100);
             width := 120; height := 120; isPlaced := true |}].
Proof.
  destruct (drag_moves_only_position Sample.origin Sample.origin
              defaultStamp defaultStamp PdfEditor.initialState
              {| PdfEditor.clientX := 110; PdfEditor.clientY := 130 |}
              {| PdfEditor.clientX := 300; PdfEditor.clientY := 200 |}
              false)
    as (_ & _ & s' & _ & Hx & Hy & Hw & Hh & Hp & Honly).
  destruct (Honly eq_refl) as [-> _].
  destruct s'; cbn in *. by subst.
Defined.

(** ** The overlay: resize *)

Section Resize.

Local Open Scope Q_scope.





End Resize.

(** *** Comparisons and [Math.max] in binary64 *)

Section Doubles.

Import Binary64.






End Doubles.




(** ** Export: the conversion from pixels to points *)

Section Conversion.

Lemma array_get_sizes (d docM : PdfLib.PDFDocument) (i : Z) page :
  Spec.sizes d = Spec.sizes docM →
  array_get (PdfLib.getPages docM) i = Some page →
  ∃ page', array_get (PdfLib.getPages d) i = Some page' ∧
           PdfLib.getSize page' = PdfLib.getSize page.
Proof.
  unfold Spec.sizes, array_get. intros Hsizes.
  destruct (0 <=? i); [|discriminate]. intros Hpage.
  assert (Hat : (PdfLib.getSize <$> PdfLib.getPages d) !! Z.to_nat i
                = Some (PdfLib.getSize page)).
  { by rewrite Hsizes, list_lookup_fmap, Hpage. }
  rewrite list_lookup_fmap in Hat.
  destruct (PdfLib.getPages d !! Z.to_nat i) as [page'|]; [|discriminate].
  injection Hat as Hat. eauto.
Qed.

Lemma sizes_array_set (pages : list PdfLib.PDFPage) (i : Z) page image options :
  array_get pages i = Some page →
  PdfLib.getSize <$> array_set pages i (PdfLib.drawImage image options page)
  = PdfLib.getSize <$> pages.
Proof.
  unfold array_get, array_set. destruct (0 <=? i); [|done]. intros Hpage.
  rewrite list_fmap_insert. cbn. apply list_insert_id.
  by rewrite list_lookup_fmap, Hpage.
Qed.

(** An iteration whose pages exist reads the preview page, draws the
    rectangle of the spec and leaves the page sizes alone. *)
Lemma stampPage_draws doc stamps image docM k d stamp uiPage page :
  Spec.sizes d = Spec.sizes docM →
  stamps !! k = Some stamp →
  PdfJs.getPage doc k = Some uiPage →
  array_get (PdfLib.getPages docM) (k - 1) = Some page →
  ∃ d',
    stampPage (Some doc) stamps image k d
    = ([PdfJsGetPage k;
        PdfLibDrawImage (k - 1)
          (Spec.pointRectangle stamp
             (PdfJs.width (PdfJs.getViewport uiPage 1))
             (PdfLib.size_width (PdfLib.getSize page))
             (PdfLib.size_height (PdfLib.getSize page)))],
       Some d') ∧
    Spec.sizes d' = Spec.sizes docM.
Proof.
  intros Hsizes Hstamp Hui Hpage.
  destruct (array_get_sizes d docM (k - 1) page Hsizes Hpage)
    as (page' & Hpage' & Hsize).
  unfold stampPage. rewrite Hpage', Hstamp. cbn. rewrite Hui. cbn.
  rewrite Hsize. eexists. split; [reflexivity|].
  unfold Spec.sizes at 1. cbn. rewrite sizes_array_set by done. exact Hsizes.
Qed.

Lemma forIn_draws doc stamps image docM keys :
  (∀ k, k ∈ keys →
        is_Some (stamps !! k) ∧ is_Some (PdfJs.getPage doc k) ∧
        is_Some (array_get (PdfLib.getPages docM) (k - 1))) →
  ∀ d, Spec.sizes d = Spec.sizes docM →
  ∃ d',
    (forIn keys (stampPage (Some doc) stamps image) d).2 = Some d' ∧
    Spec.sizes d' = Spec.sizes docM ∧
    ∀ k stamp uiPage page,
      k ∈ keys →
      stamps !! k = Some stamp →
      PdfJs.getPage doc k = Some uiPage →
      array_get (PdfLib.getPages docM) (k - 1) = Some page →
      PdfLibDrawImage (k - 1)
        (Spec.pointRectangle stamp
           (PdfJs.width (PdfJs.getViewport uiPage 1))
           (PdfLib.size_width (PdfLib.getSize page))
           (PdfLib.size_height (PdfLib.getSize page)))
      ∈ (forIn keys (stampPage (Some doc) stamps image) d).1.
Proof.
  induction keys as [|k keys IH]; intros Hkeys d Hsizes; cbn [forIn].
  - exists d. split; [done|]. split; [done|].
    by intros k stamp uiPage page ?%elem_of_nil.
  - destruct (Hkeys k) as ([stamp Hstamp] & [uiPage Hui] & [page Hpage]);
      [apply list_elem_of_here|].
    destruct (stampPage_draws doc stamps image docM k d stamp uiPage page)
      as (d1 & Hstep & Hsizes1); try done.
    destruct (IH (λ k' Hin, Hkeys k' (list_elem_of_further _ _ _ Hin))
                d1 Hsizes1) as (d' & Hres & Hsizes' & Hdraws).
    exists d'. rewrite bind_effects, bind_result, Hstep. cbn.
    split; [done|]. split; [done|].
    intros k' stamp' uiPage' page' Hin Hstamp' Hui' Hpage'.
    apply elem_of_cons in Hin as [->|Hin].
    + assert (stamp' = stamp) as -> by congruence.
      assert (uiPage' = uiPage) as -> by congruence.
      assert (page' = page) as -> by congruence.
      apply list_elem_of_further, list_elem_of_here.
    + do 2 apply list_elem_of_further. by eapply Hdraws.
Qed.

End Conversion.

(** C1.  When the export reaches its loop (file read, document loaded,
    image embedded) and every stamped page exists in both libraries'
    copies of the document, then for every page [p] in StampState the
    export draws on page index [p - 1] the rectangle with
    [scale = renderedWidth / pageWidth], [width = stamp.width / scale],
    [height = stamp.height / scale], [x = stamp.x / scale] and
    [y = pageHeight - stamp.y / scale - stamp.height / scale], where
    [renderedWidth] is the preview page's viewport width at scale 1 and
    [pageWidth], [pageHeight] are the size of the page to modify. *)
Theorem export_converts_geometry (env : Env) (st : AppState) (f : File)
    (doc : PdfJs.PDFDocumentProxy) (bytes imageBytes : Bytes)
    (docM : PdfLib.PDFDocument) (stampImage : PdfLib.PDFImage) :
  file st = Some f →
  pdfDoc st = Some doc →
  arrayBuffer env f = Some bytes →
  load env bytes = Some docM →
  stampImageBytes env = Some imageBytes →
  embedPng env docM imageBytes = Some stampImage →
  (∀ p, is_Some (stamps st !! p) →
        is_Some (PdfJs.getPage doc p) ∧
        is_Some (array_get (PdfLib.getPages docM) (p - 1))) →
  ∀ (p : Z) (stamp : Stamp),
    stamps st !! p = Some stamp →
    ∃ uiPage page,
      PdfJs.getPage doc p = Some uiPage ∧
      array_get (PdfLib.getPages docM) (p - 1) = Some page ∧
      let renderedWidth := PdfJs.width (PdfJs.getViewport uiPage 1) in
      let pageWidth := PdfLib.size_width (PdfLib.getSize page) in
      let pageHeight := PdfLib.size_height (PdfLib.getSize page) in
      let scale := (renderedWidth / pageWidth)%Q in
      PdfLibDrawImage (p - 1)
        {| PdfLib.x := (x stamp / scale)%Q;
           PdfLib.y := (pageHeight - (y stamp / scale) - (height stamp / scale))%Q;
           PdfLib.width := (width stamp / scale)%Q;
           PdfLib.height := (height stamp / scale)%Q;
           PdfLib.opacity := 0.85 |}
      ∈ (handleDownload env st).2.
Proof.
  intros Hfile Hdoc Hbytes Hload Himage Hembed Hpages p stamp Hp.
  destruct (Hpages p) as [[uiPage Hui] [page Hpage]]; [by eexists|].
  exists uiPage, page. split; [done|]. split; [done|]. cbn zeta.
  assert (Hkeys : (length (Object_keys (stamps st)) =? 0)%nat = false).
  { apply not_true_is_false. intros Hnone%Object_keys_none.
    by rewrite Hnone, lookup_empty in Hp. }
  destruct (forIn_draws doc (stamps st) stampImage docM
              (Object_keys (stamps st))) with (d := docM)
    as (d' & Hres & _ & Hdraws); [|done|].
  { intros k Hk%Object_keys_elem. destruct (Hpages k Hk). done. }
  specialize (Hdraws p stamp uiPage page
                (proj2 (Object_keys_elem _ _) (mk_is_Some _ _ Hp))
                Hp Hui Hpage).
  assert (Hbody :
    PdfLibDrawImage (p - 1)
      (Spec.pointRectangle stamp (PdfJs.width (PdfJs.getViewport uiPage 1))
         (PdfLib.size_width (PdfLib.getSize page))
         (PdfLib.size_height (PdfLib.getSize page)))
    ∈ (exportBody env f (Some doc) (stamps st)).1).
  { destruct (load_Some _ _ _ Hload) as (PDFDocument & Hlib & Hloaded).
    unfold exportBody. try_step. rewrite Hlib. try_step.
    rewrite Hbytes. try_step. rewrite Hloaded.
    try_step. rewrite Himage. try_step. rewrite Hembed. try_step.
    do 3 apply list_elem_of_further. apply elem_of_app. by left. }
  unfold handleDownload. rewrite Hfile, Hkeys, Hdoc.
  destruct (exportBody env f (Some doc) (stamps st)) as [t [[]|]];
    cbn in *; [done|].
  apply elem_of_app. by left.
Qed.

Lemma export_converts_geometry_witness :
  PdfLibDrawImage 0
    {| PdfLib.x := (100 / (612 * 1 / 612))%Q;
       PdfLib.y := (792 - (100 / (612 * 1 / 612)) - (120 / (612 * 1 / 612)))%Q;
       PdfLib.width := (120 / (612 * 1 / 612))%Q;
       PdfLib.height := (120 / (612 * 1 / 612))%Q;
       PdfLib.opacity := 0.85 |}
  ∈ (handleDownload Sample.env Sample.stamped).2.
Proof.
  assert (Hstamps : stamps Sample.stamped = {[ 1 := defaultStamp ]})
    by reflexivity.
  assert (Hpages : ∀ p, is_Some (stamps Sample.stamped !! p) →
            is_Some (PdfJs.getPage Sample.preview p) ∧
            is_Some (array_get (PdfLib.getPages Sample.document) (p - 1))).
  { intros p. rewrite Hstamps. destruct (decide (p = 1)) as [->|Hne].
    - intros _. split; by eexists.
    - rewrite lookup_singleton_ne by congruence. by intros [? ?]. }
  destruct (export_converts_geometry Sample.env Sample.stamped Sample.pdf
              Sample.preview [] [] Sample.document {| PdfLib.png := [] |}
              eq_refl eq_refl eq_refl eq_refl eq_refl eq_refl Hpages
              1 defaultStamp eq_refl)
    as (uiPage & page & Hui & Hpage & Hin).
  injection Hui as <-. injection Hpage as <-. exact Hin.
Defined.

(** * Further properties of the controller and the overlay *)

(** ** Update stamp, toggle, page list *)

Lemma setStamps_same (st : AppState) : setStamps (stamps st) st = st.
Proof. by destruct st. Qed.

Lemma setCurrentPage_same (st : AppState) :
  setCurrentPage (currentPage st) st = st.
Proof. by destruct st. Qed.

(** X1.  [updateStamp] reads back what it wrote (nothing after a
    deletion), a second update of the same page overrides the first,
    and updates of different pages can be applied in either order. *)
Theorem updateStamp_algebra (s : StampState) (p q : Z)
    (v w : option Stamp) :
  updateStamp p v s !! p = v ∧
  updateStamp p v (updateStamp p w s) = updateStamp p v s ∧
  (p ≠ q →
   updateStamp p v (updateStamp q w s) = updateStamp q w (updateStamp p v s)).
Proof.
  split; [apply updateStamp_lookup_eq|]. split.
  - apply map_eq. intros i. destruct (decide (i = p)) as [->|Hne].
    + by rewrite !updateStamp_lookup_eq.
    + by rewrite !updateStamp_lookup_ne.
  - intros Hpq. apply map_eq. intros i.
    destruct (decide (i = p)) as [->|Hip].
    + rewrite updateStamp_lookup_eq, updateStamp_lookup_ne by done.
      by rewrite updateStamp_lookup_eq.
    + rewrite (updateStamp_lookup_ne _ p i) by done.
      destruct (decide (i = q)) as [->|Hiq].
      * by rewrite !updateStamp_lookup_eq.
      * by rewrite !updateStamp_lookup_ne.
Qed.

Lemma updateStamp_algebra_witness :
  updateStamp 1 (Some Sample.moved)
    (updateStamp 2 (Some defaultStamp) ∅)
  = updateStamp 2 (Some defaultStamp)
      (updateStamp 1 (Some Sample.moved) ∅).
Proof.
  apply (proj2 (proj2 (updateStamp_algebra ∅ 1 2 (Some Sample.moved)
                         (Some defaultStamp)))).
  lia.
Defined.

(** X2.  The stamp button flips the presence of the active page's
    stamp: an absent stamp appears with the default geometry, a present
    one disappears; and a third press does what the first did. *)
Theorem toggle_flips_presence (st : AppState) :
  (stamps st !! currentPage st = None →
   stamps (handleAddOrRemoveStamp st) !! currentPage st = Some defaultStamp) ∧
  (is_Some (stamps st !! currentPage st) →
   stamps (handleAddOrRemoveStamp st) !! currentPage st = None) ∧
  handleAddOrRemoveStamp
    (handleAddOrRemoveStamp (handleAddOrRemoveStamp st))
  = handleAddOrRemoveStamp st.
Proof.
  split; [|split].
  - intros Hp. rewrite (toggle_absent st Hp). cbn. apply lookup_insert_eq.
  - intros [s Hp]. rewrite (toggle_present st s Hp). cbn.
    apply lookup_delete_eq.
  - destruct st as [f d cp S status0 err].
    unfold handleAddOrRemoveStamp, updateStamp, setStamps. cbn.
    destruct (S !! cp) as [s|] eqn:Hp; cbn.
    + rewrite lookup_delete_eq. cbn. rewrite lookup_insert_eq. cbn.
      by rewrite delete_insert_eq, delete_delete_eq.
    + rewrite lookup_insert_eq. cbn. rewrite lookup_delete_eq. cbn.
      by rewrite insert_delete_eq, insert_insert_eq.
Qed.

Lemma toggle_flips_presence_witness :
  stamps (handleAddOrRemoveStamp initialState) !! 1 = Some defaultStamp ∧
  stamps (handleAddOrRemoveStamp Sample.dragged) !! 1 = None.
Proof.
  split.
  - apply (proj1 (toggle_flips_presence initialState)). reflexivity.
  - apply (proj1 (proj2 (toggle_flips_presence Sample.dragged))).
    by eexists.
Defined.

(** X3.  The editors rendered are those of the pages [1 .. numPages]:
    a number is in the list exactly when it is in that range, and
    without a document there is none. *)
Theorem pageNumbers_range (st : AppState) (p : Z) :
  (p ∈ pageNumbers st ↔ 1 ≤ p ≤ numPages st) ∧
  (pdfDoc st = None → pageNumbers st = []).
Proof.
  split.
  - unfold pageNumbers. rewrite list_elem_of_fmap. split.
    + intros (i & -> & Hi). apply elem_of_seq in Hi. lia.
    + intros Hp. exists (Z.to_nat (p - 1)). split; [lia|].
      apply elem_of_seq. lia.
  - intros Hdoc. unfold pageNumbers, numPages. by rewrite Hdoc.
Qed.

Lemma pageNumbers_range_witness :
  2 ∈ pageNumbers Sample.stamped ∧ pageNumbers initialState = [].
Proof.
  split.
  - apply (proj1 (pageNumbers_range Sample.stamped 2)).
    vm_compute. split; discriminate.
  - apply (proj2 (pageNumbers_range initialState 0)). reflexivity.
Defined.

(** X4.  With the current page in range, each page button is disabled
    exactly where its handler would not move, and pressing next then
    previous (or previous then next) away from the ends returns to the
    same state. *)
Theorem page_buttons_at_the_ends (st : AppState) :
  1 ≤ currentPage st ≤ numPages st →
  (previousDisabled st = true ↔ previousPage st = st) ∧
  (nextDisabled st = true ↔ nextPage st = st) ∧
  (currentPage st < numPages st → previousPage (nextPage st) = st) ∧
  (1 < currentPage st → nextPage (previousPage st) = st).
Proof.
  intros Hrange.
  assert (Hset : ∀ v, setCurrentPage v st = st ↔ v = currentPage st).
  { intros v. split; [by intros <-|]. intros ->. apply setCurrentPage_same. }
  unfold previousDisabled, nextDisabled, previousPage, nextPage.
  rewrite !Hset, !Z.eqb_eq.
  split; [lia|]. split; [lia|].
  assert (Htwice : ∀ v w,
            setCurrentPage v (setCurrentPage w st) = setCurrentPage v st)
    by reflexivity.
  assert (Hnum : ∀ w, numPages (setCurrentPage w st) = numPages st)
    by reflexivity.
  split; intros Hlt; rewrite Htwice, ?Hnum; apply Hset; cbn; lia.
Qed.

Lemma page_buttons_at_the_ends_witness :
  previousPage Sample.stamped = Sample.stamped ∧
  previousPage (nextPage Sample.stamped) = Sample.stamped.
Proof.
  assert (Hrange : 1 ≤ currentPage Sample.stamped ≤ numPages Sample.stamped)
    by (vm_compute; split; discriminate).
  destruct (page_buttons_at_the_ends Sample.stamped Hrange)
    as (Hprev & _ & Hnext & _).
  split.
  - apply Hprev. reflexivity.
  - apply Hnext. reflexivity.
Defined.

(** ** The overlay's gestures *)

(** X5.  A pointer move changes nothing in the controller when the
    editor is in neither gesture, and nothing on a page that has no
    stamp, whatever the editor's state. *)
Theorem idle_move_changes_nothing (p : Z)
    (container : option PdfEditor.DOMRect) (es : PdfEditor.State)
    (e : PdfEditor.MouseEvent) (st : AppState) :
  (PdfEditor.isDragging es = false ∧ PdfEditor.isResizing es = false) ∨
  stamps st !! p = None →
  editorMouseMove p container es e st = st.
Proof.
  intros Hidle. unfold editorMouseMove, PdfEditor.handleMouseMove.
  destruct (stamps st !! p) as [stamp|]; [|done].
  destruct Hidle as [[-> ->]|?]; done.
Qed.

Lemma idle_move_changes_nothing_witness :
  editorMouseMove 1 (Some Sample.origin) PdfEditor.initialState
    {| PdfEditor.clientX := 300; PdfEditor.clientY := 200 |} Sample.stamped
  = Sample.stamped ∧
  editorMouseMove 2 (Some Sample.origin) Sample.dragging
    {| PdfEditor.clientX := 300; PdfEditor.clientY := 200 |} Sample.stamped
  = Sample.stamped.
Proof.
  split.
  - apply idle_move_changes_nothing. left. split; reflexivity.
  - apply idle_move_changes_nothing. right. reflexivity.
Defined.

(** X6.  Releasing the pointer ends any gesture: after it no pointer
    move produces an update, whatever came before.  Pressing on a page
    without stamp starts nothing, and pressing the resize handle never
    turns dragging on. *)
Theorem pointer_up_ends_gesture (container : option PdfEditor.DOMRect)
    (stamp : option Stamp) (es : PdfEditor.State)
    (e : PdfEditor.MouseEvent) :
  PdfEditor.handleMouseMove container stamp (PdfEditor.handleMouseUp es) e
    = [] ∧
  PdfEditor.handleStampMouseDown container None e es = es ∧
  PdfEditor.isDragging (PdfEditor.handleResizeHandleMouseDown es)
    = PdfEditor.isDragging es.
Proof.
  split; [|done]. unfold PdfEditor.handleMouseMove. by destruct stamp.
Qed.

Section Gestures.

Local Open Scope Q_scope.

(** X7.  A drag translates the stamp: while the container stays where
    it was at pointer-down, each move puts the stamp's corner where it
    was at pointer-down plus the pointer's displacement since then; in
    particular a move that does not displace the pointer leaves the
    corner in place. *)
Theorem drag_translates (rect : PdfEditor.DOMRect) (stamp0 stamp : Stamp)
    (es0 : PdfEditor.State) (e0 e : PdfEditor.MouseEvent) :
  PdfEditor.isResizing es0 = false →
  let es := PdfEditor.handleStampMouseDown (Some rect) (Some stamp0) e0 es0 in
  ∃ s',
    PdfEditor.handleMouseMove (Some rect) (Some stamp) es e = [Some s'] ∧
    x s' == x stamp0 + (PdfEditor.clientX e - PdfEditor.clientX e0) ∧
    y s' == y stamp0 + (PdfEditor.clientY e - PdfEditor.clientY e0) ∧
    (PdfEditor.clientX e == PdfEditor.clientX e0 → x s' == x stamp0) ∧
    (PdfEditor.clientY e == PdfEditor.clientY e0 → y s' == y stamp0).
Proof.
  intros Hresize es. eexists. split.
  { unfold PdfEditor.handleMouseMove. cbn. rewrite Hresize. reflexivity. }
  cbn. split; [ring|]. split; [ring|]. split; intros ->; ring.
Qed.

Lemma drag_translates_witness :
  ∃ s',
    PdfEditor.handleMouseMove (Some Sample.origin) (Some defaultStamp)
      (PdfEditor.handleStampMouseDown (Some Sample.origin)
         (Some defaultStamp)
         {| PdfEditor.clientX := 110; PdfEditor.clientY := 130 |}
         PdfEditor.initialState)
      {| PdfEditor.clientX := 310; PdfEditor.clientY := 100 |}
    = [Some s'] ∧
    x s' == 300 ∧ y s' == 70.
Proof.
  destruct (drag_translates Sample.origin defaultStamp defaultStamp
              PdfEditor.initialState
              {| PdfEditor.clientX := 110; PdfEditor.clientY := 130 |}
              {| PdfEditor.clientX := 310; PdfEditor.clientY := 100 |}
              eq_refl)
    as (s' & Hmove & Hx & Hy & _).
  exists s'. split; [exact Hmove|].
  split; [rewrite Hx | rewrite Hy]; reflexivity.
Defined.

(** X9.  With the pointer exactly on the bottom-right corner of a stamp
    of width and height at least 50, a resize move gives back the same
    width and height: taking the handle does not make the box jump. *)
Theorem resize_at_corner_is_still (rect : PdfEditor.DOMRect) (stamp : Stamp)
    (es : PdfEditor.State) (e : PdfEditor.MouseEvent) :
  PdfEditor.isResizing es = true →
  50 <= width stamp →
  50 <= height stamp →
  PdfEditor.clientX e - PdfEditor.left rect == x stamp + width stamp →
  PdfEditor.clientY e - PdfEditor.top rect == y stamp + height stamp →
  ∃ s',
    last (PdfEditor.handleMouseMove (Some rect) (Some stamp) es e)
      = Some (Some s') ∧
    width s' == width stamp ∧ height s' == height stamp ∧
    x s' = x stamp ∧ y s' = y stamp.
Proof.
  intros Hresize Hw Hh Hx Hy.
  exists (PdfEditor.resizeUpdate stamp
            (PdfEditor.getRelativeCoords (Some rect) e)).
  split.
  { unfold PdfEditor.handleMouseMove. rewrite Hresize.
    by destruct (PdfEditor.isDragging es). }
  assert (Hh0 : ~ height stamp == 0).
  { intros H0. rewrite H0 in Hh. by apply Hh. }
  assert (Hw0 : ~ width stamp == 0).
  { intros H0. rewrite H0 in Hw. by apply Hw. }
  assert (HW : Qmax (Qmax 50 (PdfEditor.clientX e - PdfEditor.left rect
                               - x stamp))
                 (Qmax 50 (PdfEditor.clientY e - PdfEditor.top rect
                            - y stamp)
                  * (width stamp / height stamp))
               == width stamp).
  { assert (Ha : PdfEditor.clientX e - PdfEditor.left rect - x stamp
                 == width stamp) by (rewrite Hx; ring).
    assert (Hb : PdfEditor.clientY e - PdfEditor.top rect - y stamp
                 == height stamp) by (rewrite Hy; ring).
    rewrite Ha, Hb.
    rewrite (Q.max_r 50 (width stamp) Hw), (Q.max_r 50 (height stamp) Hh).
    assert (Hc : height stamp * (width stamp / height stamp) == width stamp)
      by (field; done).
    rewrite Hc. apply Q.max_id. }
  cbn. split; [exact HW|]. split; [|done].
  rewrite HW. field. by split.
Qed.

Lemma resize_at_corner_is_still_witness :
  ∃ s',
    PdfEditor.handleMouseMove (Some Sample.origin) (Some defaultStamp)
      Sample.resizing {| PdfEditor.clientX := 220; PdfEditor.clientY := 220 |}
    = [Some s'] ∧
    width s' == 120 ∧ height s' == 120.
Proof.
  destruct (resize_at_corner_is_still Sample.origin defaultStamp
              Sample.resizing
              {| PdfEditor.clientX := 220; PdfEditor.clientY := 220 |}
              eq_refl)
    as (s' & Hlast & Hw & Hh & _).
  - vm_compute. discriminate.
  - vm_compute. discriminate.
  - reflexivity.
  - reflexivity.
  - exists s'. injection Hlast as <-. split; [reflexivity|]. by split.
Defined.

End Gestures.

(** X10.  If a press on the stamp's body arrives while a resize is
    under way, so that both gestures are on, a pointer move hands over
    the drag update and then the resize update; the resize update is
    the one that stays, and it keeps the stamp's position. *)
Theorem resize_overrides_drag (p : Z) (rect : PdfEditor.DOMRect)
    (stamp : Stamp) (es : PdfEditor.State) (e : PdfEditor.MouseEvent)
    (st : AppState) :
  PdfEditor.isDragging es = true →
  PdfEditor.isResizing es = true →
  stamps st !! p = Some stamp →
  ∃ dragged resized,
    PdfEditor.handleMouseMove (Some rect) (Some stamp) es e
      = [Some dragged; Some resized] ∧
    stamps (editorMouseMove p (Some rect) es e st)
      = <[p := resized]> (stamps st) ∧
    x resized = x stamp ∧ y resized = y stamp ∧
    width dragged = width stamp ∧ height dragged = height stamp.
Proof.
  intros Hdrag Hresize Hp. do 2 eexists. split.
  { unfold PdfEditor.handleMouseMove. rewrite Hdrag, Hresize. reflexivity. }
  split; [|done].
  unfold editorMouseMove, PdfEditor.handleMouseMove.
  rewrite Hp, Hdrag, Hresize. cbn. apply insert_insert_eq.
Qed.

Lemma resize_overrides_drag_witness :
  ∃ resized,
    stamps (editorMouseMove 1 (Some Sample.origin)
              (PdfEditor.handleStampMouseDown (Some Sample.origin)
                 (Some defaultStamp)
                 {| PdfEditor.clientX := 110; PdfEditor.clientY := 110 |}
                 Sample.resizing)
              {| PdfEditor.clientX := 400; PdfEditor.clientY := 130 |}
              Sample.stamped)
    = <[1 := resized]> (stamps Sample.stamped) ∧
    x resized = 100%Q ∧ y resized = 100%Q.
Proof.
  destruct (resize_overrides_drag 1 Sample.origin defaultStamp
              (PdfEditor.handleStampMouseDown (Some Sample.origin)
                 (Some defaultStamp)
                 {| PdfEditor.clientX := 110; PdfEditor.clientY := 110 |}
                 Sample.resizing)
              {| PdfEditor.clientX := 400; PdfEditor.clientY := 130 |}
              Sample.stamped eq_refl eq_refl eq_refl)
    as (dragged & resized & _ & Hstate & Hx & Hy & _).
  exists resized. by split.
Defined.

(** ** What is rendered *)

Lemma run_allPlaced (env : Env) (evs : list Event) :
  allPlaced (stamps (run env evs)).
Proof.
  unfold run.
  enough (H : ∀ st, allPlaced (stamps st) →
                    allPlaced (stamps (fold_left (handle env) evs st)))
    by apply H, allPlaced_empty.
  induction evs as [|ev evs IH]; intros st Hst; [done|].
  cbn [fold_left]. by apply IH, allPlaced_handle.
Qed.

(** X11.  After any sequence of events, a page's overlay is rendered
    exactly when the page has a stamp: no stored stamp is hidden. *)
Theorem overlay_rendered_iff_stamped (env : Env) (evs : list Event)
    (p : Z) :
  PdfEditor.overlayRendered (stamps (run env evs) !! p) = true
  ↔ is_Some (stamps (run env evs) !! p).
Proof.
  pose proof (run_allPlaced env evs p) as Hplaced.
  destruct (stamps (run env evs) !! p) as [stamp|]; cbn.
  - split; [by eexists|]. intros _. by apply Hplaced.
  - split; [discriminate|]. by intros [? ?].
Qed.

Lemma overlay_rendered_iff_stamped_witness :
  PdfEditor.overlayRendered (stamps Sample.dragged !! 1) = true.
Proof.
  apply (proj2 (overlay_rendered_iff_stamped Sample.env
                  [FileChange (Some Sample.pdf); AddOrRemoveStamp;
                   MouseMove 1 (Some Sample.origin) Sample.dragging
                     {| PdfEditor.clientX := 300; PdfEditor.clientY := 200 |}]
                  1)).
  by eexists.
Defined.

(** ** Select file: an accepted file *)

(** X12.  Selecting a PDF-typed file replaces the whole session, whatever
    it was: either the file is read and parsed, and the state is that
    file, its document, page 1, no stamps, status [ready] and no error;
    or reading or parsing fails, and the state is no file, no document,
    page 1, no stamps, status [idle] and the load error, the failure
    being logged last. *)
Theorem pdf_selection_replaces_session (env : Env) (f : File)
    (st : AppState) :
  type f = "application/pdf" →
  let '(st', effects) := handleFileChange env (Some f) st in
  (∃ buffer doc,
     arrayBuffer env f = Some buffer ∧ getDocument env buffer = Some doc ∧
     st' = {| file := Some f; pdfDoc := Some doc; currentPage := 1;
              stamps := ∅; status := ready; error := None |} ∧
     effects = [ReadFile f; PdfJsGetDocument buffer]) ∨
  ((arrayBuffer env f = None ∨
    ∃ buffer, arrayBuffer env f = Some buffer ∧
              getDocument env buffer = None) ∧
   st' = {| file := None; pdfDoc := None; currentPage := 1; stamps := ∅;
            status := idle;
            error :=
              Some "Failed to load the PDF. Please try a different file." |} ∧
   last effects = Some (ConsoleError "Error loading PDF:")).
Proof.
  intros Htype. unfold handleFileChange.
  rewrite Htype, String.eqb_refl. cbn.
  destruct (arrayBuffer env f) as [buffer|]; cbn.
  - unfold getDocument. destruct (pdfjsLib env) as [pdfjs|]; cbn.
    + destruct (pdfjs buffer) as [doc|] eqn:Hdoc; cbn.
      * left. by exists buffer, doc.
      * right. split; [right; by exists buffer|]. done.
    + right. split; [right; by exists buffer|]. done.
  - right. split; [by left|]. done.
Qed.

Lemma pdf_selection_replaces_session_witness :
  (handleFileChange Sample.env (Some Sample.pdf) Sample.dragged).1
  = {| file := Some Sample.pdf; pdfDoc := Some Sample.preview;
       currentPage := 1; stamps := ∅; status := ready; error := None |}.
Proof.
  pose proof (pdf_selection_replaces_session Sample.env Sample.pdf
                Sample.dragged eq_refl) as H.
  destruct (handleFileChange Sample.env (Some Sample.pdf) Sample.dragged)
    as [st' effects].
  destruct H as [(buffer & doc & Hbuffer & Hdoc & -> & _)
                |([Hfail|(buffer & _ & Hfail)] & _)].
  - injection Hbuffer as <-. injection Hdoc as <-. reflexivity.
  - discriminate Hfail.
  - discriminate Hfail.
Defined.

(** ** Export: when it runs and what it touches *)

Lemma exportBody_first env f pdfDoc stamps :
  match PDFLib env with
  | Some _ => ∃ t, (exportBody env f pdfDoc stamps).1 = ReadFile f :: t
  | None => exportBody env f pdfDoc stamps = ([], None)
  end.
Proof.
  unfold exportBody. destruct (PDFLib env) as [PDFDocument|];
    [|reflexivity].
  try_step. try_step. by eexists.
Qed.

Ltac plain_effects :=
  let Hin := fresh "Hin" in
  intros Hin; left;
  repeat (apply elem_of_cons in Hin as [->|Hin]; [by split|]);
  by apply elem_of_nil in Hin.

(** The effects of a [try] body, by kind. *)
Lemma exportBody_effects env f pdfDoc stamps e :
  e ∈ (exportBody env f pdfDoc stamps).1 →
  (∀ index options, e ≠ PdfLibDrawImage index options) ∧
  (∀ n, e ≠ PdfJsGetPage n) ∨
  ∃ p, p ∈ Object_keys stamps ∧
       (e = PdfJsGetPage p ∨ ∃ options, e = PdfLibDrawImage (p - 1) options).
Proof.
  unfold exportBody. try_step.
  destruct (PDFLib env) as [PDFDocument|]; try_step; [|plain_effects].
  destruct (arrayBuffer env f) as [existingPdfBytes|]; try_step;
    [|plain_effects].
  destruct (PDFDocument existingPdfBytes) as [pdfDocToModify|]; try_step;
    [|plain_effects].
  destruct (stampImageBytes env) as [imageBytes|]; try_step;
    [|plain_effects].
  destruct (embedPng env pdfDocToModify imageBytes) as [stampImage|];
    try_step; [|plain_effects].
  intros Hin.
  repeat (apply elem_of_cons in Hin as [->|Hin]; [left; by split|]).
  apply elem_of_app in Hin as [Hin|Hin].
  { right. by eapply forIn_effects. }
  destruct (forIn (Object_keys stamps) (stampPage pdfDoc stamps stampImage)
              pdfDocToModify).2 as [stamped|];
    cbn [from_option] in Hin; [|by apply elem_of_nil in Hin].
  revert Hin. try_step.
  destruct (save env stamped) as [pdfBytes|]; cbn; plain_effects.
Qed.

Lemma handleDownload_effects env (st : AppState) e :
  e ∈ (handleDownload env st).2 →
  ∃ f, file st = Some f ∧
       (e ∈ (exportBody env f (pdfDoc st) (stamps st)).1 ∨
        e = ConsoleError "Error creating stamped PDF:").
Proof.
  unfold handleDownload. destruct (file st) as [f|];
    [|by intros ?%elem_of_nil].
  destruct (length (Object_keys (stamps st)) =? 0)%nat;
    [by intros ?%elem_of_nil|].
  destruct (exportBody env f (pdfDoc st) (stamps st)) as [t [[]|]] eqn:Hbody;
    cbn [fst snd]; intros Hin; exists f; (split; [done|]); rewrite Hbody.
  - by left.
  - apply elem_of_app in Hin as [Hin|[->|?%elem_of_nil]%elem_of_cons];
      [by left|by right|done].
Qed.

(** X13.  Export does nothing at all exactly when no file is loaded or
    StampState is empty, and its button is disabled exactly when
    StampState is empty.  Otherwise, with [window.PDFLib] defined its
    first act is to read the file, and with [window.PDFLib] missing it
    reads nothing and only logs the failure. *)
Theorem export_runs_iff_ready_to (env : Env) (st : AppState) :
  ((handleDownload env st).2 = [] ↔ file st = None ∨ stamps st = ∅) ∧
  (downloadDisabled st = true ↔ stamps st = ∅) ∧
  (∀ f, file st = Some f → stamps st ≠ ∅ →
        match PDFLib env with
        | Some _ => head (handleDownload env st).2 = Some (ReadFile f)
        | None =>
            (handleDownload env st).2
            = [ConsoleError "Error creating stamped PDF:"]
        end).
Proof.
  assert (Hrun : ∀ f, file st = Some f → stamps st ≠ ∅ →
            match PDFLib env with
            | Some _ => head (handleDownload env st).2 = Some (ReadFile f)
            | None =>
                (handleDownload env st).2
                = [ConsoleError "Error creating stamped PDF:"]
            end).
  { intros f Hfile Hstamps. unfold handleDownload. rewrite Hfile.
    destruct (length (Object_keys (stamps st)) =? 0)%nat eqn:Hkeys.
    { by apply Object_keys_none in Hkeys. }
    pose proof (exportBody_first env f (pdfDoc st) (stamps st)) as Hfirst.
    destruct (PDFLib env) as [PDFDocument|].
    - destruct Hfirst as [t Ht].
      destruct (exportBody env f (pdfDoc st) (stamps st)) as [t' [[]|]];
        cbn in *; by subst.
    - by rewrite Hfirst. }
  split; [|split; [apply Object_keys_none|exact Hrun]].
  split.
  - intros Hnil. destruct (file st) as [f|] eqn:Hfile; [|by left].
    right. destruct (decide (stamps st = ∅)) as [|Hne]; [done|].
    specialize (Hrun f eq_refl Hne). rewrite Hnil in Hrun.
    by destruct (PDFLib env).
  - intros Hguard. unfold handleDownload.
    destruct (file st) as [f|]; [|done].
    destruct Hguard as [?|Hempty]; [done|].
    apply Object_keys_none in Hempty. by rewrite Hempty.
Qed.

Lemma export_runs_iff_ready_to_witness :
  head (handleDownload Sample.env Sample.stamped).2
  = Some (ReadFile Sample.pdf) ∧
  (handleDownload Sample.offline Sample.stamped).2
  = [ConsoleError "Error creating stamped PDF:"].
Proof.
  assert (Hne : stamps Sample.stamped ≠ ∅).
  { intros Heq. apply (f_equal (λ s : StampState, s !! 1)) in Heq.
    vm_compute in Heq. discriminate Heq. }
  split.
  - apply (proj2 (proj2 (export_runs_iff_ready_to Sample.env
                           Sample.stamped)) Sample.pdf eq_refl Hne).
  - apply (proj2 (proj2 (export_runs_iff_ready_to Sample.offline
                           Sample.stamped)) Sample.pdf eq_refl Hne).
Defined.

(** X14.  Whatever happens during an export, it leaves the file, the
    document handle, the current page and the stamps as they were; the
    status afterwards is [ready], or unchanged when export was
    blocked. *)
Theorem export_touches_status_and_error_only (env : Env) (st : AppState) :
  let st' := (handleDownload env st).1 in
  file st' = file st ∧ pdfDoc st' = pdfDoc st ∧
  currentPage st' = currentPage st ∧ stamps st' = stamps st ∧
  (status st' = ready ∨
   status st' = status st ∧ (file st = None ∨ stamps st = ∅)).
Proof.
  cbn zeta. unfold handleDownload. destruct (file st) as [f|] eqn:Hfile.
  - destruct (length (Object_keys (stamps st)) =? 0)%nat eqn:Hkeys.
    + apply Object_keys_none in Hkeys. cbn. rewrite Hfile. eauto 10.
    + destruct (exportBody env f (pdfDoc st) (stamps st)) as [t [[]|]];
        cbn; rewrite Hfile; eauto 10.
  - cbn. rewrite Hfile. eauto 10.
Qed.

(** X15.  During an export, a preview page is fetched and an image is
    drawn only for pages that have a stamp: every draw targets index
    [p - 1] for a page [p] of StampState, and every page fetched is
    such a [p]. *)
Theorem export_draws_on_stamped_pages_only (env : Env) (st : AppState) :
  (∀ index options,
     PdfLibDrawImage index options ∈ (handleDownload env st).2 →
     is_Some (stamps st !! (index + 1))) ∧
  (∀ n, PdfJsGetPage n ∈ (handleDownload env st).2 →
        is_Some (stamps st !! n)).
Proof.
  split.
  - intros index options Hin.
    apply handleDownload_effects in Hin as (f & _ & [Hin|[=]]).
    apply exportBody_effects in Hin
      as [[Hno _]|(p & Hp & [[=]|[o [= -> _]]])].
    + by destruct (Hno index options).
    + apply Object_keys_elem in Hp. by replace (p - 1 + 1) with p by lia.
  - intros n Hin.
    apply handleDownload_effects in Hin as (f & _ & [Hin|[=]]).
    apply exportBody_effects in Hin
      as [[_ Hno]|(p & Hp & [[= ->]|[o [=]]])].
    + by destruct (Hno n).
    + by apply Object_keys_elem in Hp.
Qed.

Lemma export_draws_on_stamped_pages_only_witness :
  PdfLibDrawImage 1 (Spec.pointRectangle defaultStamp 612 612 792)
  ∉ (handleDownload Sample.env Sample.stamped).2.
Proof.
  intros Hin.
  apply (proj1 (export_draws_on_stamped_pages_only Sample.env
                  Sample.stamped)) in Hin.
  destruct Hin as [stamp Hstamp]. vm_compute in Hstamp. discriminate Hstamp.
Defined.

(** ** Export: a run that succeeds *)

(** X16.  When the [try] body of an export completes, the state ends as
    before but with status [ready] and the error cleared; the effects
    end with saving the stamped document and one download, named
    [stamped_] followed by the file's name and carrying the saved
    bytes; there is no other download and nothing is logged. *)
Theorem export_success_downloads_once (env : Env) (st : AppState)
    (f : File) :
  file st = Some f →
  stamps st ≠ ∅ →
  (exportBody env f (pdfDoc st) (stamps st)).2 = Some tt →
  let '(st', effects) := handleDownload env st in
  st' = setStatus ready (setError None st) ∧
  ∃ existingPdfBytes pdfDocToModify imageBytes stampImage stamped pdfBytes t,
    arrayBuffer env f = Some existingPdfBytes ∧
    load env existingPdfBytes = Some pdfDocToModify ∧
    stampImageBytes env = Some imageBytes ∧
    embedPng env pdfDocToModify imageBytes = Some stampImage ∧
    (forIn (Object_keys (stamps st))
       (stampPage (pdfDoc st) (stamps st) stampImage) pdfDocToModify).2
      = Some stamped ∧
    save env stamped = Some pdfBytes ∧
    effects = t ++ [PdfLibSave; Download ("stamped_" +:+ name f) pdfBytes] ∧
    (∀ filename data, Download filename data ∉ t) ∧
    (∀ label, ConsoleError label ∉ t).
Proof.
  intros Hfile Hstamps Hok. unfold handleDownload. rewrite Hfile.
  destruct (length (Object_keys (stamps st)) =? 0)%nat eqn:Hkeys.
  { by apply Object_keys_none in Hkeys. }
  destruct (exportBody env f (pdfDoc st) (stamps st)) as [t0 r] eqn:Hbody.
  cbn in Hok. subst r. split; [done|].
  assert (Ht0 : t0 = (exportBody env f (pdfDoc st) (stamps st)).1)
    by by rewrite Hbody.
  assert (Hr : (exportBody env f (pdfDoc st) (stamps st)).2 = Some tt)
    by by rewrite Hbody.
  clear Hbody. revert Ht0 Hr. unfold exportBody, load. try_step.
  destruct (PDFLib env) as [PDFDocument|]; try_step; [|discriminate].
  destruct (arrayBuffer env f) as [existingPdfBytes|]; try_step;
    [|discriminate].
  destruct (PDFDocument existingPdfBytes) as [pdfDocToModify|] eqn:Hload;
    try_step; [|discriminate].
  destruct (stampImageBytes env) as [imageBytes|]; try_step;
    [|discriminate].
  destruct (embedPng env pdfDocToModify imageBytes) as [stampImage|]
    eqn:Hembed; try_step; [|discriminate].
  destruct (forIn (Object_keys (stamps st))
              (stampPage (pdfDoc st) (stamps st) stampImage)
              pdfDocToModify) as [tloop [stamped|]] eqn:Hloop;
    try_step; [|discriminate].
  destruct (save env stamped) as [pdfBytes|] eqn:Hsave; try_step;
    [|discriminate].
  intros -> _.
  exists existingPdfBytes, pdfDocToModify, imageBytes, stampImage, stamped,
    pdfBytes,
    ([ReadFile f; PdfLibLoad existingPdfBytes; PdfLibEmbedPng] ++ tloop).
  do 4 (split; [done|]).
  split; [by rewrite Hloop|]. split; [done|]. split; [done|].
  assert (Hin : ∀ e, e ∈ tloop →
            ∃ p, e = PdfJsGetPage p ∨ ∃ o, e = PdfLibDrawImage (p - 1) o).
  { intros e He.
    replace tloop with (forIn (Object_keys (stamps st))
                          (stampPage (pdfDoc st) (stamps st) stampImage)
                          pdfDocToModify).1 in He by by rewrite Hloop.
    apply forIn_effects in He as (p & _ & He). eauto. }
  split.
  - intros filename data He.
    repeat (apply elem_of_cons in He as [[=]|He]).
    apply Hin in He as (p & [[=]|[o [=]]]).
  - intros label He.
    repeat (apply elem_of_cons in He as [[=]|He]).
    apply Hin in He as (p & [[=]|[o [=]]]).
Qed.

Lemma export_success_downloads_once_witness :
  status (handleDownload Sample.env Sample.stamped).1 = ready ∧
  error (handleDownload Sample.env Sample.stamped).1 = None ∧
  last (handleDownload Sample.env Sample.stamped).2
  = Some (Download "stamped_deed.pdf" []).
Proof.
  assert (Hne : stamps Sample.stamped ≠ ∅).
  { intros Heq. apply (f_equal (λ s : StampState, s !! 1)) in Heq.
    vm_compute in Heq. discriminate Heq. }
  pose proof (export_success_downloads_once Sample.env Sample.stamped
                Sample.pdf eq_refl Hne eq_refl) as H.
  destruct (handleDownload Sample.env Sample.stamped) as [st' effects].
  destruct H as (-> & b & d & ib & img & stamped & bytes & t & _ & _ & _
                 & _ & _ & Hsave & -> & _).
  injection Hsave as <-. cbn [fst snd].
  split; [done|]. split; [done|].
  rewrite last_app. reflexivity.
Defined.

(** ** Export: the document that is saved *)

Section Document.

Lemma array_get_set_eq {A : Type} (a : list A) (i : Z) (v0 v : A) :
  array_get a i = Some v0 → array_get (array_set a i v) i = Some v.
Proof.
  unfold array_get, array_set. destruct (0 <=? i); [|discriminate].
  intros Hi. apply list_lookup_insert_eq. by eapply lookup_lt_Some.
Qed.

Lemma array_get_set_ne {A : Type} (a : list A) (i j : Z) (v : A) :
  i ≠ j → array_get (array_set a i v) j = array_get a j.
Proof.
  intros Hne. unfold array_get, array_set.
  destruct (0 <=? i) eqn:Hi; [|done]. destruct (0 <=? j) eqn:Hj; [|done].
  apply list_lookup_insert_ne. lia.
Qed.

(** What a completed iteration read and wrote. *)
Lemma stampPage_completed pdfDoc stamps image k d t d1 :
  stampPage pdfDoc stamps image k d = (t, Some d1) →
  ∃ doc uiPage stamp page,
    pdfDoc = Some doc ∧ PdfJs.getPage doc k = Some uiPage ∧
    stamps !! k = Some stamp ∧
    array_get (PdfLib.getPages d) (k - 1) = Some page ∧
    PdfLib.getPages d1
    = array_set (PdfLib.getPages d) (k - 1)
        (PdfLib.drawImage image
           (Spec.pointRectangle stamp
              (PdfJs.width (PdfJs.getViewport uiPage 1))
              (PdfLib.size_width (PdfLib.getSize page))
              (PdfLib.size_height (PdfLib.getSize page)))
           page).
Proof.
  unfold stampPage.
  destruct (array_get (PdfLib.getPages d) (k - 1)) as [page|]; cbn;
    [|discriminate].
  destruct pdfDoc as [doc|]; cbn; [|discriminate].
  destruct (PdfJs.getPage doc k) as [uiPage|] eqn:Hui; cbn; [|discriminate].
  destruct (stamps !! k) as [stamp|]; cbn; [|discriminate].
  intros [= <- <-]. by exists doc, uiPage, stamp, page.
Qed.

Lemma forIn_document pdfDoc stamps image keys :
  NoDup keys →
  ∀ d d',
    (forIn keys (stampPage pdfDoc stamps image) d).2 = Some d' →
    (∀ i, i + 1 ∉ keys →
          array_get (PdfLib.getPages d') i = array_get (PdfLib.getPages d) i) ∧
    (∀ k, k ∈ keys →
       ∃ doc uiPage stamp page,
         pdfDoc = Some doc ∧ PdfJs.getPage doc k = Some uiPage ∧
         stamps !! k = Some stamp ∧
         array_get (PdfLib.getPages d) (k - 1) = Some page ∧
         array_get (PdfLib.getPages d') (k - 1)
         = Some (PdfLib.drawImage image
                   (Spec.pointRectangle stamp
                      (PdfJs.width (PdfJs.getViewport uiPage 1))
                      (PdfLib.size_width (PdfLib.getSize page))
                      (PdfLib.size_height (PdfLib.getSize page)))
                   page)).
Proof.
  induction 1 as [|k keys Hk Hnodup IH]; intros d d'; cbn [forIn].
  - intros [= <-]. split; [done|]. by intros k ?%elem_of_nil.
  - rewrite bind_result.
    destruct (stampPage pdfDoc stamps image k d) as [t [d1|]] eqn:Hstep;
      cbn; [|discriminate].
    intros Hrest. destruct (IH d1 d' Hrest) as [Hother Hkeys].
    destruct (stampPage_completed _ _ _ _ _ _ _ Hstep)
      as (doc & uiPage & stamp & page & Hdoc & Hui & Hstamp & Hpage & Hd1).
    split.
    + intros i Hi. apply not_elem_of_cons in Hi as [Hik Hi].
      rewrite (Hother i Hi), Hd1. apply array_get_set_ne. lia.
    + intros k' [->|Hin]%elem_of_cons.
      * exists doc, uiPage, stamp, page. repeat (split; [done|]).
        rewrite (Hother (k - 1)) by by replace (k - 1 + 1) with k by lia.
        rewrite Hd1. by eapply array_get_set_eq.
      * destruct (Hkeys k' Hin)
          as (doc' & uiPage' & stamp' & page' & ? & ? & ? & Hpage' & Hres).
        exists doc', uiPage', stamp', page'. repeat (split; [done|]).
        rewrite Hd1, array_get_set_ne in Hpage'; [done|].
        intros Heq. apply Hk. by replace k with k' by lia.
Qed.

Lemma Object_keys_NoDup (s : StampState) : NoDup (Object_keys s).
Proof.
  unfold Object_keys. rewrite merge_sort_Permutation.
  apply NoDup_fst_map_to_list.
Qed.

End Document.

(** X17.  When the export's loop completes, the document it hands to
    [save] differs from the loaded one in this only: every page that
    has a stamp keeps its size and has one more image drawn, after what
    was there, with the converted rectangle; every page without a
    stamp is as it was loaded. *)
Theorem exported_document (pdfDoc : option PdfJs.PDFDocumentProxy)
    (s : StampState) (image : PdfLib.PDFImage)
    (docM stamped : PdfLib.PDFDocument) :
  (forIn (Object_keys s) (stampPage pdfDoc s image) docM).2 = Some stamped →
  (∀ p stamp,
     s !! p = Some stamp →
     ∃ doc uiPage page page',
       pdfDoc = Some doc ∧ PdfJs.getPage doc p = Some uiPage ∧
       array_get (PdfLib.getPages docM) (p - 1) = Some page ∧
       array_get (PdfLib.getPages stamped) (p - 1) = Some page' ∧
       PdfLib.getSize page' = PdfLib.getSize page ∧
       PdfLib.drawn page'
       = PdfLib.drawn page
         ++ [(image,
              Spec.pointRectangle stamp
                (PdfJs.width (PdfJs.getViewport uiPage 1))
                (PdfLib.size_width (PdfLib.getSize page))
                (PdfLib.size_height (PdfLib.getSize page)))]) ∧
  (∀ i, s !! (i + 1) = None →
        array_get (PdfLib.getPages stamped) i
        = array_get (PdfLib.getPages docM) i).
Proof.
  intros Hloop.
  destruct (forIn_document pdfDoc s image (Object_keys s)
              (Object_keys_NoDup s) docM stamped Hloop) as [Hother Hkeys].
  split.
  - intros p stamp Hp.
    destruct (Hkeys p) as (doc & uiPage & stamp' & page & ? & ? & Hp' & ? & ?).
    { apply Object_keys_elem. by eexists. }
    assert (stamp' = stamp) as -> by congruence.
    exists doc, uiPage, page. eexists. repeat (split; [done|]). done.
  - intros i Hi. apply Hother. intros Hin%Object_keys_elem.
    rewrite Hi in Hin. by destruct Hin.
Qed.

Lemma exported_document_witness :
  ∃ stamped,
    (forIn (Object_keys (stamps Sample.stamped))
       (stampPage (Some Sample.preview) (stamps Sample.stamped)
          {| PdfLib.png := [] |}) Sample.document).2 = Some stamped ∧
    array_get (PdfLib.getPages stamped) 1 = Some Sample.blank.
Proof.
  eexists. split; [reflexivity|].
  rewrite (proj2 (exported_document (Some Sample.preview)
                    (stamps Sample.stamped) {| PdfLib.png := [] |}
                    Sample.document _ eq_refl) 1); reflexivity.
Defined.

(** ** Export: what the conversion does to a rectangle *)

Section Rectangle.

Local Open Scope Q_scope.

(** X18.  When the preview page's viewport at scale 1 is as wide as the
    page to modify, an iteration of the export draws the stamp's pixel
    geometry as points unchanged: same x, width and height, and y
    measured from the bottom edge instead of the top. *)
Theorem export_keeps_geometry_at_scale_one (doc : PdfJs.PDFDocumentProxy)
    (s : StampState) (image : PdfLib.PDFImage) (k : Z)
    (d : PdfLib.PDFDocument) (stamp : Stamp) (uiPage : PdfJs.PDFPageProxy)
    (page : PdfLib.PDFPage) :
  s !! k = Some stamp →
  PdfJs.getPage doc k = Some uiPage →
  array_get (PdfLib.getPages d) (k - 1) = Some page →
  PdfJs.width (PdfJs.getViewport uiPage 1)
    == PdfLib.size_width (PdfLib.getSize page) →
  ~ PdfLib.size_width (PdfLib.getSize page) == 0 →
  ∃ options d',
    stampPage (Some doc) s image k d
      = ([PdfJsGetPage k; PdfLibDrawImage (k - 1) options], Some d') ∧
    PdfLib.x options == x stamp ∧
    PdfLib.width options == width stamp ∧
    PdfLib.height options == height stamp ∧
    PdfLib.y options
      == PdfLib.size_height (PdfLib.getSize page) - y stamp - height stamp.
Proof.
  intros Hstamp Hui Hpage Hsame Hnz.
  destruct (stampPage_draws doc s image d k d stamp uiPage page)
    as (d' & Hstep & _); try done.
  eexists. exists d'. split; [exact Hstep|].
  cbn. rewrite Hsame. repeat split; field; done.
Qed.

Lemma export_keeps_geometry_at_scale_one_witness :
  ∃ options d',
    stampPage (Some Sample.preview) (stamps Sample.stamped)
      {| PdfLib.png := [] |} 1 Sample.document
      = ([PdfJsGetPage 1; PdfLibDrawImage 0 options], Some d') ∧
    PdfLib.x options == 100 ∧ PdfLib.y options == 792 - 100 - 120.
Proof.
  destruct (export_keeps_geometry_at_scale_one Sample.preview
              (stamps Sample.stamped) {| PdfLib.png := [] |} 1
              Sample.document defaultStamp Sample.letter Sample.blank
              eq_refl eq_refl eq_refl)
    as (options & d' & Hstep & Hx & _ & _ & Hy).
  - reflexivity.
  - discriminate.
  - exists options, d'. by split.
Defined.

End Rectangle.

(** ** A session, event after event *)

Section Session.

Variable env : Env.

(** pdf.js only delivers documents that have a first page. *)
Hypothesis documents_have_pages :
  ∀ data doc, getDocument env data = Some doc → 1 ≤ PdfJs.numPages doc.

Lemma consistent_initial : consistent initialState.
Proof. done. Qed.

Lemma controlsRendered_inv (st : AppState) :
  controlsRendered st = true →
  ∃ doc, pdfDoc st = Some doc ∧ status st = ready.
Proof.
  unfold controlsRendered. destruct (pdfDoc st) as [doc|]; [|discriminate].
  intros Hready. exists doc. split; [done|].
  by destruct (status st).
Qed.

Lemma editorMounted_inv (st : AppState) (pageNumber : Z) :
  editorMounted st pageNumber = true →
  controlsRendered st = true ∧ 1 ≤ pageNumber ≤ numPages st.
Proof.
  unfold editorMounted. intros [Hcontrols Hin%bool_decide_eq_true]%andb_true_iff.
  split; [done|].
  apply list_elem_of_lookup in Hin as [i Hi].
  by apply pageNumbers_lookup in Hi as [_ ?].
Qed.

Lemma editorMouseMove_keys p container es e (st : AppState) (q : Z) :
  is_Some (stamps (editorMouseMove p container es e st) !! q) →
  is_Some (stamps st !! q).
Proof.
  unfold editorMouseMove, PdfEditor.handleMouseMove.
  destruct (stamps st !! p) as [stamp|] eqn:Hp; [|done].
  destruct (PdfEditor.isDragging es), (PdfEditor.isResizing es); cbn;
    try done; unfold updateStamp;
    destruct (decide (q = p)) as [->|Hne];
    rewrite ?Hp, ?lookup_insert_ne by done; by eauto.
Qed.

Lemma editorMouseMove_frame p container es e (st : AppState) :
  file (editorMouseMove p container es e st) = file st ∧
  pdfDoc (editorMouseMove p container es e st) = pdfDoc st ∧
  currentPage (editorMouseMove p container es e st) = currentPage st ∧
  status (editorMouseMove p container es e st) = status st.
Proof.
  unfold editorMouseMove.
  generalize (PdfEditor.handleMouseMove container (stamps st !! p) es e).
  intros calls. revert st.
  induction calls as [|c calls IH]; intros st; [done|].
  cbn [fold_left]. destruct (IH (onStampChange p c st)) as (-> & -> & -> & ->).
  done.
Qed.

Lemma numPages_eq (st st' : AppState) :
  pdfDoc st' = pdfDoc st → numPages st' = numPages st.
Proof. unfold numPages. by intros ->. Qed.

Lemma consistent_loaded (st : AppState) doc :
  pdfDoc st = Some doc →
  consistent st ↔
  status st = ready ∧ is_Some (file st) ∧
  1 ≤ currentPage st ≤ numPages st ∧
  ∀ p, is_Some (stamps st !! p) → 1 ≤ p ≤ numPages st.
Proof. unfold consistent. by intros ->. Qed.

Lemma consistent_setError (st : AppState) v :
  consistent st → consistent (setError v st).
Proof. done. Qed.

Lemma consistent_handle (st : AppState) (ev : Event) :
  consistent st → enabled st ev = true → consistent (handle env st ev).
Proof.
  intros Hst Hev.
  destruct ev as [sel| | |pn| |pn container es e|]; cbn [handle enabled] in *.
  - (* select file *)
    unfold handleFileChange. destruct sel as [f|];
      [|by apply consistent_setError].
    destruct (String.eqb (type f) "application/pdf");
      [|by apply consistent_setError].
    cbn. destruct (arrayBuffer env f) as [buffer|]; cbn; [|done].
    destruct (pdfjsLib env) as [pdfjs|] eqn:Hlib; cbn; [|done].
    destruct (pdfjs buffer) as [doc|] eqn:Hparsed; cbn; [|done].
    assert (Hdoc : getDocument env buffer = Some doc)
      by (unfold getDocument; by rewrite Hlib).
    apply documents_have_pages in Hdoc.
    destruct (PdfJs.numPages doc =? 0) eqn:Hz; [lia|].
    split; [done|]. split; [by eexists|]. split; [lia|].
    intros q [? Hq]. by rewrite lookup_empty in Hq.
  - (* previous page *)
    apply andb_true_iff in Hev as [(doc & Hdoc & _)%controlsRendered_inv _].
    apply (consistent_loaded _ doc) in Hst as (Hs & Hf & Hc & Hk); [|done].
    apply (consistent_loaded _ doc); [done|].
    unfold previousPage.
    change (numPages (setCurrentPage ?v st)) with (numPages st). cbn.
    split; [done|]. split; [done|]. split; [lia|done].
  - (* next page *)
    apply andb_true_iff in Hev as [(doc & Hdoc & _)%controlsRendered_inv _].
    apply (consistent_loaded _ doc) in Hst as (Hs & Hf & Hc & Hk); [|done].
    apply (consistent_loaded _ doc); [done|].
    unfold nextPage.
    change (numPages (setCurrentPage ?v st)) with (numPages st). cbn.
    split; [done|]. split; [done|]. split; [lia|done].
  - (* select page *)
    apply editorMounted_inv in Hev
      as [(doc & Hdoc & _)%controlsRendered_inv Hrange].
    apply (consistent_loaded _ doc) in Hst as (Hs & Hf & Hc & Hk); [|done].
    apply (consistent_loaded _ doc); [done|].
    unfold onSelectPage.
    change (numPages (setCurrentPage ?v st)) with (numPages st). cbn.
    split; [done|]. split; [done|]. split; [lia|done].
  - (* stamp button *)
    apply controlsRendered_inv in Hev as (doc & Hdoc & _).
    apply (consistent_loaded _ doc) in Hst as (Hs & Hf & Hc & Hk); [|done].
    assert (Hshape : ∃ v, handleAddOrRemoveStamp st
              = setStamps (updateStamp (currentPage st) v (stamps st)) st).
    { unfold handleAddOrRemoveStamp.
      destruct (stamps st !! currentPage st); by eexists. }
    destruct Hshape as [v ->].
    apply (consistent_loaded _ doc); [done|].
    change (numPages (setStamps ?v st)) with (numPages st). cbn.
    split; [done|]. split; [done|]. split; [lia|].
    intros q Hq. destruct (decide (q = currentPage st)) as [->|Hne]; [lia|].
    rewrite updateStamp_lookup_ne in Hq by done. by apply Hk.
  - (* pointer move *)
    apply editorMounted_inv in Hev
      as [(doc & Hdoc & _)%controlsRendered_inv Hrange].
    apply (consistent_loaded _ doc) in Hst as (Hs & Hf & Hc & Hk); [|done].
    destruct (editorMouseMove_frame pn container es e st)
      as (Hfile & Hpdf & Hcur & Hstatus).
    apply (consistent_loaded _ doc); [by rewrite Hpdf|].
    rewrite (numPages_eq st _ Hpdf), Hfile, Hcur, Hstatus.
    split; [done|]. split; [done|]. split; [lia|].
    intros q Hq%editorMouseMove_keys. by apply Hk.
  - (* export *)
    apply andb_true_iff in Hev as [Hready _].
    unfold downloadRendered in Hready.
    assert (Hstatus : status st = ready) by by destruct (status st).
    destruct (pdfDoc st) as [doc|] eqn:Hdoc.
    2:{ unfold consistent in Hst. rewrite Hdoc in Hst.
        destruct Hst as [Hidle _]. congruence. }
    apply (consistent_loaded _ doc) in Hst as (Hs & [f Hf] & Hc & Hk);
      [|done].
    assert (Hshape : ∃ v, (handleDownload env st).1
                          = setStatus ready (setError v st)).
    { unfold handleDownload. rewrite Hf.
      destruct (length (Object_keys (stamps st)) =? 0)%nat.
      - eexists. unfold setStatus, setError. cbn [fst]. cbn.
        rewrite Hstatus. reflexivity.
      - destruct (exportBody env f (pdfDoc st) (stamps st)) as [t [[]|]];
          by eexists. }
    destruct Hshape as [v ->].
    apply (consistent_loaded _ doc); [done|].
    change (numPages (setStatus ready (setError v st))) with (numPages st).
    cbn.
    split; [done|]. split; [by eexists|]. split; [lia|done].
Qed.

Lemma consistent_sessionFrom (evs : list Event) :
  ∀ st st', consistent st → sessionFrom env st evs = Some st' →
            consistent st'.
Proof.
  induction evs as [|ev evs IH]; intros st st' Hst; cbn.
  - by intros [= <-].
  - destruct (enabled st ev) eqn:Hev; [|discriminate].
    apply IH. by apply consistent_handle.
Qed.

End Session.

(** X20.  In a session where each handler has finished before the next
    event and every event comes from a control that is rendered and
    not disabled, if pdf.js only delivers documents with at least one
    page, then at every point: the status is [ready] exactly when a
    document is loaded and is [idle] otherwise; with a document loaded
    a file is selected and [1 ≤ currentPage ≤ numPages]; and every
    stamped page number lies in [1 .. numPages]. *)
Theorem session_stays_consistent (env : Env) (evs : list Event)
    (st : AppState) :
  (∀ data doc, getDocument env data = Some doc → 1 ≤ PdfJs.numPages doc) →
  session env evs = Some st →
  (status st = ready ↔ is_Some (pdfDoc st)) ∧
  (status st = idle ↔ pdfDoc st = None) ∧
  (is_Some (pdfDoc st) →
   is_Some (file st) ∧ 1 ≤ currentPage st ≤ numPages st) ∧
  (∀ p, is_Some (stamps st !! p) → 1 ≤ p ≤ numPages st).
Proof.
  intros Hpages Hrun.
  pose proof (consistent_sessionFrom env Hpages evs initialState st
                consistent_initial Hrun) as Hst.
  unfold consistent in Hst. destruct (pdfDoc st) as [doc|].
  - destruct Hst as (Hs & Hf & Hc & Hk). rewrite Hs.
    split; [by split; [eexists|]|].
    split; [by split|]. by split.
  - destruct Hst as (Hs & Hempty & Hc). rewrite Hs.
    split; [by split; [|intros [? ?]]|].
    split; [done|]. split; [by intros [? ?]|].
    intros p [? Hp]. by rewrite Hempty, lookup_empty in Hp.
Qed.

Lemma session_stays_consistent_witness :
  ∃ st,
    session Sample.env
      [FileChange (Some Sample.pdf); AddOrRemoveStamp; NextPage;
       AddOrRemoveStamp; DownloadClick] = Some st ∧
    (status st = ready ↔ is_Some (pdfDoc st)) ∧
    (is_Some (stamps st !! 2) → 1 ≤ 2 ≤ numPages st).
Proof.
  eexists. split; [reflexivity|].
  assert (Hpages : ∀ data doc, getDocument Sample.env data = Some doc →
                               1 ≤ PdfJs.numPages doc).
  { intros data doc [= <-]. vm_compute. discriminate. }
  destruct (session_stays_consistent Sample.env
              [FileChange (Some Sample.pdf); AddOrRemoveStamp; NextPage;
               AddOrRemoveStamp; DownloadClick] _ Hpages eq_refl)
    as (Hready & _ & _ & Hkeys).
  split; [exact Hready|]. exact (Hkeys 2).
Defined.
